(** * WCH-Link firmware update tool: the flash session of [flash_tool.py]

    A shallow embedding of [flash_device] and of the helpers it calls
    ([run_command], [check_firmware_file], [get_firmware_path],
    [detect_chip_type], [reset_device]).

    The program talks to the outside world through the file system, the
    [wlink] binary, the clock and the interactive prompts.  Each such call is
    an [Event]; the world answers it with a [reply] that may depend on
    everything that happened before.  A computation reads the history, returns
    a value or raises, and emits the events it issued, in order.

    The console is part of the world too.  [rich] reads what it prints as
    markup and raises [MarkupError] on a closing tag that closes nothing, so
    a [console.print] of text the program did not write (the error output of
    the tool, the message of an exception, a path) may raise; those calls
    are modelled, the others (fixed text, panels, spinners) are not.

    Not modelled either: the validators of the prompts, which belong to the
    user interface, and the interrupts of the process ([KeyboardInterrupt]
    is no [Exception]).  The blocking delays of the progress bars are kept.
    Times are in milliseconds.  Strings are byte strings: white space and
    line breaks are the ASCII ones. *)

From Stdlib Require Import List String Ascii Bool Arith NArith ZArith Lia.
From Stdlib Require Import DecimalString.
Import ListNotations.
Open Scope string_scope.
Open Scope list_scope.
Open Scope nat_scope.

(** String concatenation, as the f-strings of the source build commands. *)
Notation "a +++ b" := (String.append a b)
  (at level 60, right associativity) : string_scope.

(** ** Python strings *)

Module PyStr.

(** [needle in hay] *)
Fixpoint contains (needle hay : string) : bool :=
  if String.prefix needle hay then true
  else match hay with
       | EmptyString => false
       | String _ rest => contains needle rest
       end.

(** The ASCII characters [str.isspace] accepts.  A string is a string of
    bytes here: the white space that Unicode has beyond ASCII is not seen
    as such. *)
Definition is_space (c : ascii) : bool :=
  let n := N_of_ascii c in
  (((9 <=? n) && (n <=? 13)) || ((28 <=? n) && (n <=? 32)))%N.

(** [s.split()]: cut at runs of white space, no empty token.  [cur] is the
    token being read. *)
Fixpoint split_from (cur s : string) : list string :=
  match s with
  | EmptyString =>
      match cur with EmptyString => [] | _ => [cur] end
  | String c rest =>
      if is_space c then
        match cur with
        | EmptyString => split_from EmptyString rest
        | _ => cur :: split_from EmptyString rest
        end
      else split_from (cur +++ String c EmptyString) rest
  end.

Definition split (s : string) : list string := split_from EmptyString s.

(** Truth value of a [str] or [None]. *)
Definition truthy (s : option string) : bool :=
  match s with
  | None | Some EmptyString => false
  | Some _ => true
  end.

End PyStr.

(** The methods of [str] that [run_command] cleans the output with. *)
Module PyText.

(** [s.lstrip()], [s.rstrip()], [s.strip()] *)
Fixpoint lstrip (s : string) : string :=
  match s with
  | EmptyString => EmptyString
  | String c rest => if PyStr.is_space c then lstrip rest else s
  end.

Fixpoint rstrip (s : string) : string :=
  match s with
  | EmptyString => EmptyString
  | String c rest =>
      match rstrip rest with
      | EmptyString =>
          if PyStr.is_space c then EmptyString else String c EmptyString
      | kept => String c kept
      end
  end.

Definition strip (s : string) : string := rstrip (lstrip s).

(** [s.split(sep)] for a separator that is not empty; [skip] characters of
    a separator just found are still to pass, [cur] is the piece being
    read. *)
Fixpoint split_on_from (sep : string) (skip : nat) (cur s : string)
  : list string :=
  match s with
  | EmptyString => [cur]
  | String c rest =>
      match skip with
      | S k => split_on_from sep k cur rest
      | 0 =>
          if String.prefix sep s
          then cur :: split_on_from sep (String.length sep - 1)
                        EmptyString rest
          else split_on_from sep 0 (cur +++ String c EmptyString) rest
      end
  end.

Definition split_on (sep s : string) : list string :=
  split_on_from sep 0 EmptyString s.

(** [s.replace(old, new)], for [old] not empty *)
Definition replace (old new s : string) : string :=
  String.concat new (split_on old s).

(** [s.lower()], on ASCII letters *)
Definition lower_char (c : ascii) : ascii :=
  let n := nat_of_ascii c in
  if (65 <=? n) && (n <=? 90) then ascii_of_nat (n + 32) else c.

Fixpoint lower (s : string) : string :=
  match s with
  | EmptyString => EmptyString
  | String c rest => String (lower_char c) (lower rest)
  end.

(** [s.endswith(suffix)] *)
Definition endswith (suffix s : string) : bool :=
  (String.length suffix <=? String.length s)
  && String.eqb suffix
       (substring (String.length s - String.length suffix)
          (String.length suffix) s).

(** The length of the line boundary [s] starts with, 0 where it starts with
    none: the ASCII ones, and NEL, LS and PS as UTF-8 encodes them. *)
Definition line_break (s : string) : nat :=
  match s with
  | String "013" (String "010" _) => 2
  | String "010" _ | String "013" _ | String "011" _ | String "012" _
  | String "028" _ | String "029" _ | String "030" _ => 1
  | String "194" (String "133" _) => 2
  | String "226" (String "128" (String "168" _)) => 3
  | String "226" (String "128" (String "169" _)) => 3
  | _ => 0
  end.

(** [s.splitlines()] *)
Fixpoint splitlines_from (skip : nat) (cur s : string) : list string :=
  match s with
  | EmptyString =>
      match cur with EmptyString => [] | _ => [cur] end
  | String c rest =>
      match skip with
      | S k => splitlines_from k cur rest
      | 0 =>
          match line_break s with
          | 0 => splitlines_from 0 (cur +++ String c EmptyString) rest
          | S k => cur :: splitlines_from k EmptyString rest
          end
      end
  end.

Definition splitlines (s : string) : list string :=
  splitlines_from 0 EmptyString s.

End PyText.

(** ** Python dictionaries, in insertion order *)

Definition dict (V : Type) : Type := list (string * V).

Fixpoint dict_get {V : Type} (k : string) (d : dict V) : option V :=
  match d with
  | [] => None
  | (k', v) :: rest => if String.eqb k k' then Some v else dict_get k rest
  end.

Definition dict_keys {V : Type} (d : dict V) : list string := map fst d.

(** [xs.index(x)] *)
Fixpoint list_index (x : string) (xs : list string) : option nat :=
  match xs with
  | [] => None
  | y :: rest => if String.eqb x y then Some 0
                 else option_map S (list_index x rest)
  end.

(** ** Events and replies *)

Inductive Event : Type :=
| PathExists (p : string)                      (* os.path.exists(p) *)
| PathIsFile (p : string)                      (* os.path.isfile(p) *)
| PathReadable (p : string)                    (* os.access(p, os.R_OK) *)
| Shell (cmd : string)                         (* subprocess.run(cmd, shell=True) *)
| Exec (argv : list string)                    (* subprocess.run(argv), no shell *)
| Sleep (ms : N)                               (* time.sleep *)
| Confirm (question : string)                  (* questionary.confirm(..).ask() *)
| Select (question : string) (choices : list string)
| PathPrompt (question : string) (default : option string)
| LoadSavedPath                                (* load_saved_path() *)
| SaveFirmwarePath (p : string).               (* save_firmware_path(p) *)

Record CompletedProcess : Type :=
  { returncode : Z; stdout : string; stderr : string }.

(** What [subprocess.run] does: it comes back with a completed process, or
    it raises (the text is the exception's [str]). *)
Inductive ProcReply : Type :=
| Done (p : CompletedProcess)
| Raised (text : string).

Definition reply (e : Event) : Type :=
  match e with
  | PathExists _ | PathIsFile _ | PathReadable _ => bool
  | Shell _ | Exec _ => ProcReply
  | Sleep _ | SaveFirmwarePath _ => unit
  | Confirm _ => option bool
  | Select _ _ | PathPrompt _ _ | LoadSavedPath => option string
  end.

(** The world: given what happened so far, its answer to the next call;
    the working directory, as [os.path.abspath]; and the console, as what
    [rich] makes of a text it is to print as markup: [None] where it prints
    it, [Some msg] where it raises [MarkupError(msg)]. *)
Record World : Type :=
  { respond : list Event -> forall e : Event, reply e;
    abspath : string -> string;
    markup : string -> option string }.

(** ** Exceptions and the session monad *)

Inductive exn : Type :=
| FirmwareUpdateError (msg : string)
| OtherException (text : string).

(** [str(e)] *)
Definition exn_text (e : exn) : string :=
  match e with
  | FirmwareUpdateError msg => msg
  | OtherException text => text
  end.

Inductive Outcome (A : Type) : Type :=
| Return (a : A)
| Raise (e : exn).
Arguments Return {A} a.
Arguments Raise {A} e.

(** A computation: world and history in, outcome and emitted events out. *)
Definition M (A : Type) : Type := World -> list Event -> Outcome A * list Event.

Definition ret {A : Type} (a : A) : M A := fun _ _ => (Return a, []).

Definition raise {A : Type} (e : exn) : M A := fun _ _ => (Raise e, []).

Definition bind {A B : Type} (m : M A) (f : A -> M B) : M B :=
  fun w h =>
    match m w h with
    | (Return a, ev1) =>
        let (r, ev2) := f a w (h ++ ev1) in (r, ev1 ++ ev2)
    | (Raise e, ev1) => (Raise e, ev1)
    end.

(** [try: m  except ... as e: handler e] *)
Definition try_except {A : Type} (m : M A) (handler : exn -> M A) : M A :=
  fun w h =>
    match m w h with
    | (Return a, ev1) => (Return a, ev1)
    | (Raise e, ev1) =>
        let (r, ev2) := handler e w (h ++ ev1) in (r, ev1 ++ ev2)
    end.

Definition ask (e : Event) : M (reply e) :=
  fun w h => (Return (respond w h e), [e]).

Definition get_abspath (p : string) : M string :=
  fun w _ => (Return (abspath w p), []).

(** [rich.errors.MarkupError], an [Exception] like the others. *)
Definition MarkupError (msg : string) : exn := OtherException msg.

(** [console.print(f"{before}{data}{after}")], where [before] and [after]
    are text of the program, whose tags match, and [data] is not.  [rich]
    finds its tags at the opening brackets of the text and raises on a
    closing tag that closes nothing.  With no opening bracket in [data] the
    tags are the program's own and the text is printed; with one, the
    console decides.  [print_error] is the message of the [MarkupError], if
    there is one. *)
Definition print_error (w : World) (before data after : string)
  : option string :=
  if PyStr.contains "[" data then markup w (before +++ data +++ after)
  else None.

Definition console_print (before data after : string) : M unit :=
  fun w _ =>
    match print_error w before data after with
    | None => (Return tt, [])
    | Some msg => (Raise (MarkupError msg), [])
    end.

Declare Scope session_scope.
Delimit Scope session_scope with session.
Notation "x <- m ;; k" := (bind m (fun x => k))
  (at level 100, m at next level, right associativity) : session_scope.
Notation "m ;;; k" := (bind m (fun _ => k))
  (at level 100, right associativity) : session_scope.
Open Scope session_scope.

Definition sleep (ms : N) : M unit := ask (Sleep ms).

(** [with Progress() as progress: ... while not progress.finished:
    progress.update(task, advance=a); time.sleep(d)], total 100. *)
Fixpoint progress_loop (fuel completed advance : nat) (delay : N) : M unit :=
  match fuel with
  | 0 => ret tt
  | S fuel' =>
      if 100 <=? completed then ret tt
      else sleep delay ;;; progress_loop fuel' (completed + advance) advance delay
  end.

Definition progress_wait (advance : nat) (delay : N) : M unit :=
  progress_loop 100 0 advance delay.

(** [for x in xs: body x].  The body answers [Some v] when it leaves the loop
    ([break], or [return v] of the enclosing function) and [None] when the
    loop goes on. *)
Fixpoint for_each {A R : Type} (xs : list A) (body : A -> M (option R))
  : M (option R) :=
  match xs with
  | [] => ret None
  | x :: rest =>
      r <- body x ;;
      match r with
      | Some v => ret (Some v)
      | None => for_each rest body
      end
  end.

(** ** The helpers of the source *)

(** [subprocess.run(.., check=True)] succeeded: it returned, with exit
    status 0. *)
Definition exit_ok (r : ProcReply) : bool :=
  match r with
  | Done p => Z.eqb (returncode p) 0
  | Raised _ => false
  end.

(** The two [except] blocks of [run_command]: a fixed line for the errors
    it knows and the error output of the tool for the others, after a
    [CalledProcessError]; the text of the exception after any other. *)
Definition report_failure (r : ProcReply) : M unit :=
  match r with
  | Done p =>
      let error_msg := stderr p in
      if PyStr.contains "Operation timed out" error_msg then ret tt
      else if PyStr.contains "WCH-Link underlying protocol error" error_msg
      then ret tt
      else if PyStr.contains "Input/Output Error" error_msg then ret tt
      else console_print "[bold red]Error executing command: " error_msg
             "[/bold red]"
  | Raised text =>
      console_print "[bold red]Unexpected error: " text "[/bold red]"
  end.

(** [run_command]: the command string is split at white space and run
    without a shell.  [True] when the process exits with status 0: the lines
    it then prints hold no closing bracket, so no tag (see [cleaned_lines]).
    Otherwise the failure is reported and the answer is [False], unless the
    report itself raises: what an [except] block raises is not caught by
    the next one. *)
Definition run_command (command : string) : M bool :=
  r <- ask (Exec (PyStr.split command)) ;;
  if exit_ok r then ret true
  else report_failure r ;;; ret false.

Definition check_firmware_file (firmware_path : string) : M unit :=
  e <- ask (PathExists firmware_path) ;;
  if negb e then
    raise (FirmwareUpdateError ("Firmware file not found: " +++ firmware_path))
  else
    f <- ask (PathIsFile firmware_path) ;;
    if negb f then
      raise (FirmwareUpdateError ("Not a valid file: " +++ firmware_path))
    else
      r <- ask (PathReadable firmware_path) ;;
      if negb r then
        raise (FirmwareUpdateError
                 ("No permission to read firmware file: " +++ firmware_path))
      else ret tt.

Definition none_not_iterable : exn :=
  OtherException "argument of type 'NoneType' is not iterable".

Definition option_string_eqb (o : option string) (s : string) : bool :=
  match o with
  | Some x => String.eqb x s
  | None => false
  end.

Definition get_firmware_path (device_type : option string)
  : M (option string) :=
  match device_type with
  | None => raise none_not_iterable
  | Some dt =>
      if PyStr.contains "VSD Squadran Mini" dt then
        let default_path :=
          if PyStr.contains "CH32V003" dt
          then "./Firmware_Link/FIRMWARE_CH32V003.bin"
          else "./Firmware_Link/WCH-LinkE-APP-IAP.bin" in
        _ <- ask (PathExists default_path) ;;
        choice <- ask (Select "Firmware file options:"
                         ["Use default path"; "Select new firmware path"]) ;;
        use_default <-
          (if option_string_eqb choice "Use default path"
           then ask (PathExists default_path)
           else ret false) ;;
        if use_default then ret (Some default_path)
        else
          d <- ask (PathExists default_path) ;;
          firmware_path <-
            ask (PathPrompt "Select firmware file:"
                   (if d then Some default_path else None)) ;;
          match firmware_path with
          | Some p =>
              if PyStr.truthy firmware_path then
                ask (SaveFirmwarePath p) ;;; ret (Some p)
              else raise (FirmwareUpdateError "No firmware file selected")
          | None => raise (FirmwareUpdateError "No firmware file selected")
          end
      else
        saved_path <- ask LoadSavedPath ;;
        use_saved <-
          match saved_path with
          | Some p =>
              if PyStr.truthy saved_path then ask (PathExists p) else ret false
          | None => ret false
          end ;;
        if use_saved then ret saved_path
        else ask (PathPrompt "Enter firmware file path:" None)
  end.

(** The value [chip_configs] holds for a chip. *)
Definition chip_config (chip : string) : dict string :=
  [("erase_chip", chip); ("flash_chip", chip)].

(** The keys of [chip_configs], in the order of the source. *)
Definition known_chips : list string :=
  ["CH32V30X"; "CH32V103"; "CH57X"; "CH56X"; "CH32V20X"; "CH582";
   "CH32V003"; "CH8571"; "CH59X"; "CH643"; "CH32X035"; "CH32L103";
   "CH641"; "CH585"; "CH564"; "CH32V007"; "CH645"; "CH32V317"].

Definition chip_configs : dict (dict string) :=
  map (fun chip => (chip, chip_config chip)) known_chips.

Definition status_command : string := "wlink status -v".

Definition key_error (k : string) : exn := OtherException ("'" +++ k +++ "'").

(** [d[k]] *)
Definition subscript {V : Type} (d : dict V) (k : string) : M V :=
  match dict_get k d with
  | Some v => ret v
  | None => raise (key_error k)
  end.

(** [detect_chip_type]: the status query goes through a shell; where no
    chip is found the output is printed as it is; whatever is raised inside
    comes out as a [FirmwareUpdateError]. *)
Definition detect_chip_type : M (dict string) :=
  try_except
    (r <- ask (Shell status_command) ;;
     match r with
     | Raised text => raise (OtherException text)
     | Done p =>
         let output := stdout p in
         match find (fun chip_type => PyStr.contains chip_type output)
                 (dict_keys chip_configs) with
         | Some chip_type => subscript chip_configs chip_type
         | None =>
             if PyStr.contains "WCH-LinkE-CH32V305" output
             then subscript chip_configs "CH32V30X"
             else
               console_print "" output "" ;;;
               raise (FirmwareUpdateError
                 "Unable to detect chip type. Please check device connection.")
         end
     end)
    (fun e =>
       raise (FirmwareUpdateError ("Error detecting chip type: " +++ exn_text e))).

Definition reset_command : list string := ["wlink"; "reset"].

(** [reset_device]: [True] after a successful reset and the wait for the
    device to stabilise, [False] (with a warning) otherwise. *)
Definition reset_device : M bool :=
  r <- ask (Exec reset_command) ;;
  if exit_ok r then progress_wait 2 100 ;;; ret true
  else ret false.

(** ** [flash_device] *)

Definition max_retries : nat := 3.

(** [wlink_options]: a dictionary, or [None]. *)
Definition options : Type := option (dict string).

Definition erase_failed : exn :=
  FirmwareUpdateError "Chip erase failed after multiple attempts".

Definition flash_exhausted : exn :=
  FirmwareUpdateError "Firmware flash failed after trying all speeds".

Definition reset_failed : exn :=
  FirmwareUpdateError "Failed to reset device after erase".

Definition not_found : exn := FirmwareUpdateError "Firmware file not found".

(** The erase loop of both branches: [break] on success, two seconds
    between attempts, an error after the last one. *)
Definition erase_attempts (erase_cmd : string) : M (option unit) :=
  for_each (seq 0 max_retries) (fun attempt =>
    ok <- run_command erase_cmd ;;
    if ok then ret (Some tt)
    else if attempt <? max_retries - 1 then sleep 2000 ;;; ret None
    else raise erase_failed).

Definition vsd_erase_cmd (chip_type : string) : string :=
  "wlink erase --method power-off --chip " +++ chip_type +++ " -v".

Definition vsd_speeds : list string := ["low"; "medium"; "high"].

Definition vsd_flash_cmd (chip_type speed firmware_abs_path : string)
  : string :=
  if String.eqb chip_type "CH32V003" then
    "wlink flash --chip " +++ chip_type +++ " --speed low --verify "
      +++ firmware_abs_path
  else
    "wlink flash --chip " +++ chip_type +++ " --speed " +++ speed +++ " "
      +++ firmware_abs_path.

(** One pass of the inner loop of the VSD branch. *)
Definition vsd_flash_attempt (chip_type firmware_path : string)
    (wlink_options : options) (speed : string) (attempt : nat)
  : M (option (bool * options)) :=
  firmware_abs_path <- get_abspath firmware_path ;;
  e <- ask (PathExists firmware_abs_path) ;;
  if negb e then
    raise (FirmwareUpdateError
             ("Firmware file not found: " +++ firmware_abs_path))
  else
    ok <- run_command (vsd_flash_cmd chip_type speed firmware_abs_path) ;;
    if ok then ret (Some (true, wlink_options))
    else if attempt <? max_retries - 1 then
      reset_device ;;; sleep 2000 ;;; ret None
    else if negb (String.eqb speed (last vsd_speeds ""))
            && negb (String.eqb chip_type "CH32V003") then
      reset_device ;;; sleep 2000 ;;; ret None
    else ret None.

(** The branch for the VSD Squadran Mini boards. *)
Definition vsd_session (firmware_path : string) (wlink_options : options)
    (actual_chip : option string) : M (bool * options) :=
  let chip_type :=
    if PyStr.truthy actual_chip
    then match actual_chip with Some c => c | None => "CH32V003" end
    else "CH32V003" in
  erase_attempts (vsd_erase_cmd chip_type) ;;;
  r <- reset_device ;;
  if negb r then raise reset_failed
  else
    let current_speed_index := 0 in
    res <- for_each (skipn current_speed_index vsd_speeds) (fun speed =>
             for_each (seq 0 max_retries)
               (vsd_flash_attempt chip_type firmware_path wlink_options speed)) ;;
    match res with
    | Some result => ret result
    | None => raise flash_exhausted
    end.

Definition other_erase_cmd (erase_chip : string) : string :=
  "wlink erase --method default --chip " +++ erase_chip.

Definition other_speeds : list string := ["high"; "medium"; "low"].

Definition other_flash_cmd (flash_chip speed firmware_path : string)
  : string :=
  "wlink flash --chip " +++ flash_chip +++ " --speed " +++ speed +++ " "
    +++ firmware_path.

(** The manual power cycle the user is walked through before each speed. *)
Definition power_cycle_wait : M unit :=
  progress_wait 1 100 ;;;
  progress_wait 1 50 ;;;
  progress_wait 1 50 ;;;
  sleep 5000.

(** One pass of the inner loop of the branch for the other devices. *)
Definition other_flash_attempt (flash_chip firmware_path : string)
    (wlink_options : options) (speed : string) (attempt : nat)
  : M (option (bool * options)) :=
  ok <- run_command (other_flash_cmd flash_chip speed firmware_path) ;;
  if ok then ret (Some (true, wlink_options))
  else if attempt <? max_retries - 1 then sleep 10000 ;;; ret None
  else if negb (String.eqb speed (last other_speeds "")) then
    sleep 5000 ;;; ret None
  else ret None.

(** [speeds.index(wlink_options['speed'])] *)
Definition starting_speed_index (wlink_options : options) : M nat :=
  match wlink_options with
  | None => raise (OtherException "'NoneType' object is not subscriptable")
  | Some d =>
      speed <- subscript d "speed" ;;
      match list_index speed other_speeds with
      | Some i => ret i
      | None => raise (OtherException ("'" +++ speed +++ "' is not in list"))
      end
  end.

(** The flash loop of the branch for the other devices. *)
Definition other_flash_phase (flash_chip firmware_path : string)
    (wlink_options : options) : M (bool * options) :=
  current_speed_index <- starting_speed_index wlink_options ;;
  res <- for_each (skipn current_speed_index other_speeds) (fun speed =>
           power_cycle_wait ;;;
           for_each (seq 0 max_retries)
             (other_flash_attempt flash_chip firmware_path wlink_options speed)) ;;
  match res with
  | Some result => ret result
  | None => raise flash_exhausted
  end.

(** The branch for the other WCH-Link devices. *)
Definition other_session (firmware_path : string) (wlink_options : options)
  : M (bool * options) :=
  chip_types <- detect_chip_type ;;
  erase_chip <- subscript chip_types "erase_chip" ;;
  flash_chip <- subscript chip_types "flash_chip" ;;
  erase_attempts (other_erase_cmd erase_chip) ;;;
  sleep 5000 ;;;
  other_flash_phase flash_chip firmware_path wlink_options.

(** The first key of [chip_info] that names a VSD chip. *)
Definition find_actual_chip (chip_info : dict string) : option string :=
  find (fun chip_type =>
          existsb (String.eqb chip_type) ["CH32V003"; "CH32V30X"])
    (dict_keys chip_info).

Definition expected_chip_of (device_type : string) : option string :=
  if PyStr.contains "CH32V003" device_type then Some "CH32V003"
  else if PyStr.contains "CH32V30X" device_type then Some "CH32V30X"
  else None.

Definition mismatch_question : string :=
  "Would you like to continue with the detected chip type?".

(** The chip-mismatch check; it answers the device type to go on with. *)
Definition resolve_mismatch (device_type : string)
    (expected_chip actual_chip : option string) : M string :=
  match expected_chip, actual_chip with
  | Some expected, Some actual =>
      if PyStr.truthy expected_chip && PyStr.truthy actual_chip
         && negb (String.eqb expected actual) then
        c <- ask (Confirm mismatch_question) ;;
        match c with
        | Some true =>
            ret (if String.eqb actual "CH32V003"
                 then "VSD Squadran Mini (CH32V003)"
                 else if String.eqb actual "CH32V30X"
                      then "VSD Squadran Mini (CH32V30X)"
                      else device_type)
        | _ =>
            raise (FirmwareUpdateError
                     ("Chip type mismatch: expected " +++ expected
                        +++ ", got " +++ actual))
        end
      else ret device_type
  | _, _ => ret device_type
  end.

(** What is inside the [try] of [flash_device]. *)
Definition flash_device_body (firmware_path : option string)
    (wlink_options : options) (device_type : option string)
  : M (bool * options) :=
  firmware_path <-
    (if negb (PyStr.truthy firmware_path)
     then get_firmware_path device_type
     else ret firmware_path) ;;
  fp <-
    match firmware_path with
    | Some p =>
        if negb (PyStr.truthy firmware_path) then raise not_found
        else
          e <- ask (PathExists p) ;;
          if negb e then raise not_found else ret p
    | None => raise not_found
    end ;;
  check_firmware_file fp ;;;
  chip_info <- detect_chip_type ;;
  let actual_chip := find_actual_chip chip_info in
  dt <-
    match device_type with
    | Some dt => ret dt
    | None => raise none_not_iterable
    end ;;
  let expected_chip := expected_chip_of dt in
  dt <- resolve_mismatch dt expected_chip actual_chip ;;
  if PyStr.contains "VSD Squadran Mini" dt
  then vsd_session fp wlink_options actual_chip
  else other_session fp wlink_options.

Definition nl : string := String "010" "".

(** The two [except] blocks of [flash_device]: each prints the error and
    answers [(False, wlink_options)]. *)
Definition on_error (wlink_options : options) (e : exn)
  : M (bool * options) :=
  match e with
  | FirmwareUpdateError msg =>
      console_print (nl +++ "[bold red]Firmware Update Error: ") msg
        "[/bold red]" ;;;
      ret (false, wlink_options)
  | OtherException text =>
      console_print (nl +++ "[bold red]Unexpected Error: ") text
        "[/bold red]" ;;;
      ret (false, wlink_options)
  end.

Definition flash_device (firmware_path : option string)
    (wlink_options : options) (device_type : option string)
  : M (bool * options) :=
  try_except (flash_device_body firmware_path wlink_options device_type)
    (on_error wlink_options).

(** ** Device selection and connection check *)

Definition list_command : string := "wlink list -v".

(** [check_device_connection] *)
Definition check_device_connection : M bool :=
  try_except
    (r <- ask (Shell list_command) ;;
     match r with
     | Done p => ret (PyStr.contains "WCH-Link" (stdout p))
     | Raised text => raise (OtherException text)
     end)
    (fun _ => ret false).

Definition device_types : list string :=
  ["VSD Squadran Mini (CH32V003)"; "VSD Squadran Mini (CH32V30X)";
   "Other WCH-Link devices"].

(** [get_device_type]: the [try] block answers [Some t] where the function
    returns [t] from inside it, and [None] where it falls through to the
    menu. *)
Definition get_device_type : M (option string) :=
  early <-
    try_except
      (r <- ask (Shell status_command) ;;
       match r with
       | Raised text => raise (OtherException text)
       | Done p =>
           let output := stdout p in
           let detected_type :=
             if PyStr.contains "CH32V003" output then Some "CH32V003"
             else if PyStr.contains "CH32V30X" output
                     || PyStr.contains "WCH-LinkE-CH32V305" output
                  then Some "CH32V30X"
                  else None in
           match detected_type with
           | Some t =>
               c <- ask (Confirm ("Would you like to use detected chip type ("
                                    +++ t +++ ")?")) ;;
               match c with
               | Some true =>
                   if String.eqb t "CH32V003"
                   then ret (Some "VSD Squadran Mini (CH32V003)")
                   else if String.eqb t "CH32V30X"
                        then ret (Some "VSD Squadran Mini (CH32V30X)")
                        else ret None
               | _ => ret None
               end
           | None => ret None
           end
       end)
      (fun _ => ret None) ;;
  match early with
  | Some t => ret (Some t)
  | None => ask (Select "Select device type:" device_types)
  end.

(** ** Reading a trace *)

(** A run of [wlink <sub> ...] without a shell. *)
Definition is_wlink (sub : string) (e : Event) : bool :=
  match e with
  | Exec (prog :: s :: _) => String.eqb prog "wlink" && String.eqb s sub
  | _ => false
  end.

Definition is_erase : Event -> bool := is_wlink "erase".
Definition is_flash : Event -> bool := is_wlink "flash".
Definition is_reset : Event -> bool := is_wlink "reset".

(** An external tool invocation, of either kind. *)
Definition is_invocation (e : Event) : bool :=
  match e with
  | Shell _ | Exec _ => true
  | _ => false
  end.

(** A command string handed to a shell. *)
Definition is_shell (e : Event) : bool :=
  match e with
  | Shell _ => true
  | _ => false
  end.

(** A check of the firmware file against the file system. *)
Definition is_validation (e : Event) : bool :=
  match e with
  | PathExists _ | PathIsFile _ | PathReadable _ => true
  | _ => false
  end.

(** The token that follows [flag] on a command line. *)
Fixpoint flag_value (flag : string) (argv : list string) : option string :=
  match argv with
  | [] => None
  | tok :: rest =>
      if String.eqb tok flag then hd_error rest else flag_value flag rest
  end.

Definition has_flag (flag : string) (argv : list string) : bool :=
  existsb (String.eqb flag) argv.

(** ** The console of the scripted worlds *)

(** A reading of the tag parser of [rich.markup.render], for the worlds
    below.  A tag is an opening bracket, a character among [a-z # / @], and
    the characters up to the next closing bracket, none of them an opening
    one; an odd number of backslashes before it escapes it.  An opening tag
    is pushed; a closing tag pops the nearest open tag of its name, or the
    last one when it has no name, and raises where there is none.  Names are
    compared after trimming and lower-casing: the further normalisation of
    style names and the handlers of [@] tags are left out. *)
Module Rich.

Definition tag_start (c : ascii) : bool :=
  let n := N_of_ascii c in
  (((97 <=? n) && (n <=? 122)) || (n =? 35) || (n =? 47) || (n =? 64))%N.

(** The characters up to the closing bracket. *)
Fixpoint until_close (s : string) : option string :=
  match s with
  | EmptyString => None
  | String c rest =>
      if Ascii.eqb c "]" then Some EmptyString
      else if Ascii.eqb c "[" then None
      else option_map (String c) (until_close rest)
  end.

(** What stands between the brackets, where [s], the text after an opening
    bracket, makes a tag with it. *)
Definition tag_text (s : string) : option string :=
  match s with
  | EmptyString => None
  | String c rest =>
      if tag_start c then option_map (String c) (until_close rest) else None
  end.

(** [tag_text.partition("=")[0]] *)
Fixpoint before_equals (s : string) : string :=
  match s with
  | EmptyString => EmptyString
  | String c rest =>
      if Ascii.eqb c "=" then EmptyString else String c (before_equals rest)
  end.

Definition normalize (style : string) : string :=
  PyText.lower (PyText.strip style).

(** The stack without the nearest tag called [name]; the top comes first. *)
Fixpoint pop_style (name : string) (stack : list string)
  : option (list string) :=
  match stack with
  | [] => None
  | top :: below =>
      if String.eqb top name then Some below
      else option_map (cons top) (pop_style name below)
  end.

Definition decimal (n : nat) : string := NilZero.string_of_uint (Nat.to_uint n).

Definition no_open_tag (text : string) (position : nat) : string :=
  "closing tag '[" +++ text +++ "]' at position " +++ decimal position
    +++ " doesn't match any open tag".

Definition nothing_to_close (position : nat) : string :=
  "closing tag '[/]' at position " +++ decimal position
    +++ " has nothing to close".

(** The scan: [skip] characters of a tag just read are still to pass,
    [position] is the index of the next character, [backslashes] the length
    of the run of backslashes before it, [stack] the open tags. *)
Fixpoint render_from (skip position backslashes : nat) (stack : list string)
    (s : string) : option string :=
  match s with
  | EmptyString => None
  | String c rest =>
      match skip with
      | S k => render_from k (S position) 0 stack rest
      | 0 =>
          if Ascii.eqb c "\" then
            render_from 0 (S position) (S backslashes) stack rest
          else if Ascii.eqb c "[" then
            match tag_text rest with
            | None => render_from 0 (S position) 0 stack rest
            | Some text =>
                let after := String.length text + 1 in
                if Nat.odd backslashes then
                  render_from after (S position) 0 stack rest
                else
                  let name := before_equals text in
                  match name with
                  | String "/" closed =>
                      match PyText.strip closed with
                      | EmptyString =>
                          match stack with
                          | [] => Some (nothing_to_close position)
                          | _ :: below =>
                              render_from after (S position) 0 below rest
                          end
                      | style_name =>
                          match pop_style (normalize style_name) stack with
                          | None => Some (no_open_tag text position)
                          | Some below =>
                              render_from after (S position) 0 below rest
                          end
                      end
                  | _ =>
                      render_from after (S position) 0
                        (normalize name :: stack) rest
                  end
            end
          else render_from 0 (S position) 0 stack rest
      end
  end.

(** [None] where the text is printed, the message of the [MarkupError]
    where it is not. *)
Definition render (text : string) : option string :=
  render_from 0 0 0 [] text.

End Rich.

(** ** Scripted worlds, to run sessions on *)

Definition completed (code : Z) (out : string) : ProcReply :=
  Done {| returncode := code; stdout := out; stderr := "" |}.

(** A world with the readable regular files [files], a programmer whose
    status query prints [status], a tool that succeeds on the command lines
    [tool] accepts and says nothing where it fails, and a user who confirms
    and picks nothing. *)
Definition scripted (files : string -> bool) (status : string)
    (tool : list Event -> list string -> bool) : World :=
  {| respond := fun h e =>
       match e return reply e with
       | PathExists p | PathIsFile p | PathReadable p => files p
       | Shell _ => completed 0 status
       | Exec argv => completed (if tool h argv then 0 else 1) ""
       | Sleep _ | SaveFirmwarePath _ => tt
       | Confirm _ => Some true
       | Select _ _ | PathPrompt _ _ | LoadSavedPath => None
       end;
     abspath := fun p => "/work/" +++ p;
     markup := Rich.render |}.

Definition any_file : string -> bool := fun _ => true.

(** A tool on which flashing works at [speed] only; the rest works. *)
Definition flashes_only_at (speed : string)
    (_ : list Event) (argv : list string) : bool :=
  if is_flash (Exec argv)
  then option_string_eqb (flag_value "--speed" argv) speed
  else true.

(** A tool on which the subcommand [sub] never works; the rest works. *)
Definition never (sub : string) (_ : list Event) (argv : list string) : bool :=
  negb (is_wlink sub (Exec argv)).

(** * Vocabulary: what is said about sessions *)

(** *** Two invariants of a computation, whatever the world answers *)

(** Every event [m] emits satisfies [P]. *)
Definition emits_only {A : Type} (P : Event -> bool) (m : M A) : Prop :=
  forall w h, forallb P (snd (m w h)) = true.

(** Every value [m] returns satisfies [Q]. *)
Definition returns_only {A : Type} (Q : A -> Prop) (m : M A) : Prop :=
  forall w h a evs, m w h = (Return a, evs) -> Q a.

(** *** Shells *)

Definition shell_is_status (e : Event) : bool :=
  match e with
  | Shell cmd => String.eqb cmd status_command
  | _ => true
  end.

(** *** What the console makes of an error *)

(** What the report of the failed run [r] raises, if anything. *)
Definition report_error (w : World) (r : ProcReply) : option exn :=
  match fst (report_failure r w []) with
  | Return _ => None
  | Raise e => Some e
  end.

(** What [run_command] makes of the reply [r] of the process. *)
Definition run_result (w : World) (r : ProcReply) : Outcome bool :=
  if exit_ok r then Return true
  else match report_error w r with
       | None => Return false
       | Some e => Raise e
       end.

(** Whenever a command fails, [run_command] manages to say so. *)
Definition failures_are_printed (w : World) : Prop :=
  forall h argv,
    exit_ok (respond w h (Exec argv)) = false ->
    report_error w (respond w h (Exec argv)) = None.

(** *** The boundary of [flash_device] *)

(** A world like [all_fine], in which [dir] is a directory. *)
Definition with_directory (dir : string) : World :=
  {| respond := fun h e =>
       match e return reply e with
       | PathIsFile p => negb (String.eqb p dir)
       | other => respond (scripted any_file "CH32V003" (fun _ _ => true))
                    h other
       end;
     abspath := fun p => "/work/" +++ p;
     markup := Rich.render |}.

(** A pass of either flash loop leaves the function only with
    [(True, wlink_options)]. *)
Definition success_with (wlink_options : options)
    (r : option (bool * options)) : Prop :=
  forall v, r = Some v -> v = (true, wlink_options).

(** *** A firmware file that is not there *)

(** At no moment is [p] an existing regular file. *)
Definition never_a_file (w : World) (p : string) : Prop :=
  (forall h, respond w h (PathExists p) = false) \/
  (forall h, respond w h (PathIsFile p) = false).

(** A world in which nothing exists on disk. *)
Definition empty_disk : World :=
  scripted (fun _ => false) "CH32V003" (fun _ _ => true).

(** A world in which [fw.bin] is the only file, everything works, and the
    user, asked for a path, names that file. *)
Definition helpful_user : World :=
  {| respond := fun h e =>
       match e return reply e with
       | PathPrompt _ _ => Some "fw.bin"
       | other => respond (scripted (String.eqb "fw.bin") "CH32V003"
                             (fun _ _ => true)) h other
       end;
     abspath := fun p => "/work/" +++ p;
     markup := Rich.render |}.

(** *** Erase failure *)

(** Every erase invocation fails, whenever it is made. *)
Definition erase_always_fails (w : World) : Prop :=
  forall h argv,
    is_erase (Exec argv) = true -> exit_ok (respond w h (Exec argv)) = false.

(** The events of an erase phase in which no attempt succeeds. *)
Definition failed_erase_events (argv : list string) : list Event :=
  [Exec argv; Sleep 2000; Exec argv; Sleep 2000; Exec argv].

(** Neither an erase nor a flash invocation. *)
Definition quiet (e : Event) : bool := negb (is_erase e) && negb (is_flash e).

(** In the world [w], [m] issues no flash invocation, and once it gets to
    erasing it ends on the erase error after three attempts two seconds
    apart. *)
Definition erase_fatal {A : Type} (w : World) (m : M A) : Prop :=
  forall h,
    filter is_flash (snd (m w h)) = [] /\
    (existsb is_erase (snd (m w h)) = true ->
     exists pre argv,
       m w h = (Raise erase_failed, pre ++ failed_erase_events argv) /\
       is_erase (Exec argv) = true /\
       forallb quiet pre = true).

(** The options of a user who picked the top speed and a pin reset. *)
Definition high_speed : dict string :=
  [("erase_method", "pin-rst"); ("speed", "high")].

(** A world in which the programmer sees a CH32V003 and erasing never
    works. *)
Definition erase_broken : World := scripted any_file "CH32V003" (never "erase").

(** The world [w] with a tool that writes [text] on its error output
    whenever it fails. *)
Definition complaining (text : string) (w : World) : World :=
  {| respond := fun h e =>
       match e return reply e with
       | Exec argv =>
           match respond w h (Exec argv) with
           | Done p =>
               Done {| returncode := returncode p;
                       stdout := stdout p;
                       stderr := if Z.eqb (returncode p) 0 then stderr p
                                 else text |}
           | Raised t => Raised t
           end
       | other => respond w h other
       end;
     abspath := abspath w;
     markup := markup w |}.

(** The same world, with a tool that names the port it gave up on. *)
Definition stuck_programmer : World :=
  complaining "[/dev/ttyACM0]" erase_broken.

(** *** What chip detection returns *)

(** A dictionary [detect_chip_type] may return. *)
Definition is_chip_config (d : dict string) : Prop :=
  exists chip, In chip known_chips /\ d = chip_config chip.

(** *** Progress bars *)

(** The sleeps of [progress_loop]. *)
Fixpoint progress_events (fuel completed advance : nat) (delay : N)
  : list Event :=
  match fuel with
  | 0 => []
  | S fuel' =>
      if 100 <=? completed then []
      else Sleep delay
             :: progress_events fuel' (completed + advance) advance delay
  end.

Definition power_cycle_events : list Event :=
  progress_events 100 0 1 100 ++ progress_events 100 0 1 50
    ++ progress_events 100 0 1 50 ++ [Sleep 5000].

(** *** Speed escalation on the branch for the other devices *)

(** Flashing works at [speed] and at no other speed. *)
Definition flash_works_only_at (w : World) (speed : string) : Prop :=
  forall h argv,
    is_flash (Exec argv) = true ->
    exit_ok (respond w h (Exec argv))
    = option_string_eqb (flag_value "--speed" argv) speed.

Definition flash_argv (chip speed firmware_path : string) : list string :=
  PyStr.split (other_flash_cmd chip speed firmware_path).

(** The flash invocations of a session that fails three times at [high],
    three times at [medium] and then succeeds at [low]. *)
Definition escalation (chip firmware_path : string) : list Event :=
  repeat (Exec (flash_argv chip "high" firmware_path)) max_retries
    ++ repeat (Exec (flash_argv chip "medium" firmware_path)) max_retries
    ++ [Exec (flash_argv chip "low" firmware_path)].

(** The events of three failed flash attempts at [speed]. *)
Definition failed_flash_events (chip speed firmware_path : string)
  : list Event :=
  [Exec (flash_argv chip speed firmware_path); Sleep 10000;
   Exec (flash_argv chip speed firmware_path); Sleep 10000;
   Exec (flash_argv chip speed firmware_path)]
  ++ (if negb (String.eqb speed (last other_speeds "")) then [Sleep 5000]
      else []).

(** The events of the flash phase that fails at [high] and [medium] and
    succeeds at once at [low]. *)
Definition escalation_trace (chip firmware_path : string) : list Event :=
  power_cycle_events ++ failed_flash_events chip "high" firmware_path
    ++ power_cycle_events ++ failed_flash_events chip "medium" firmware_path
    ++ power_cycle_events ++ [Exec (flash_argv chip "low" firmware_path)].

Definition not_flash (e : Event) : bool := negb (is_flash e).

(** In the world [w], once [m] gets to flashing, it succeeds at [low] after
    three failures at [high] and three at [medium], and returns the options
    [d] it was given. *)
Definition escalating (w : World) (d : dict string) (m : M (bool * options))
  : Prop :=
  forall h,
    existsb is_flash (snd (m w h)) = true ->
    exists pre chip firmware_path,
      In chip known_chips /\
      m w h = (Return (true, Some d),
               pre ++ escalation_trace chip firmware_path) /\
      forallb not_flash pre = true.

(** A world whose programmer sees a CH32V20X and flashes at [low] only. *)
Definition slow_link : World :=
  scripted any_file "CH32V20X" (flashes_only_at "low").

(** The speed recorded in an options value. *)
Definition speed_of (o : options) : option string :=
  match o with
  | Some d => dict_get "speed" d
  | None => None
  end.

(** *** Shells *)

(** The command strings the program hands to a shell. *)
Definition shell_commands : list string := [status_command; list_command].

Definition shell_is_constant (e : Event) : bool :=
  match e with
  | Shell cmd => existsb (String.eqb cmd) shell_commands
  | _ => true
  end.

(** An invocation of [wlink erase], [wlink flash] or [wlink reset]. *)
Definition is_device_command (e : Event) : bool :=
  is_erase e || is_flash e || is_reset e.

(** A world in which everything works. *)
Definition all_fine : World := scripted any_file "CH32V003" (fun _ _ => true).

(** *** Fixed speed and fixed erase method *)

(** A flash invocation runs at [low] with [--verify]. *)
Definition low_and_verified (e : Event) : bool :=
  match e with
  | Exec argv =>
      if is_flash e
      then option_string_eqb (flag_value "--speed" argv) "low"
           && has_flag "--verify" argv
      else true
  | _ => true
  end.

(** An erase invocation carries [--method method]. *)
Definition erases_with (method : string) (e : Event) : bool :=
  match e with
  | Exec argv =>
      if is_erase e
      then option_string_eqb (flag_value "--method" argv) method
      else true
  | _ => true
  end.

Definition argv_of (e : Event) : list string :=
  match e with
  | Exec argv => argv
  | _ => []
  end.

(** A world whose programmer sees a CH32V003 and never manages to flash. *)
Definition flash_broken : World :=
  scripted any_file "CH32V003" (never "flash").

(** *** Reset failure *)







(** A world whose programmer sees a CH32V003 and cannot reset it. *)
Definition reset_broken : World :=
  scripted any_file "CH32V003" (never "reset").


(** A flash that fails once and then works, with resets that fail from the
    second one on: the session succeeds all the same. *)
Definition flaky (h : list Event) (argv : list string) : bool :=
  if is_flash (Exec argv) then existsb is_flash h
  else if is_reset (Exec argv) then negb (existsb is_reset h)
       else true.

(** *** Validation of the firmware file *)



(** The checks [flash_device] makes on the path it is about to use. *)
Definition firmware_checks (fp : string) : list Event :=
  [PathExists fp; PathExists fp; PathIsFile fp; PathReadable fp].



(** The path a session settles on: the one passed in or, where none or an
    empty one was, the one [get_firmware_path] comes back with. *)
Definition settled_path (firmware_path device_type : option string)
  : M (option string) :=
  if negb (PyStr.truthy firmware_path)
  then get_firmware_path device_type
  else ret firmware_path.





(** *** Further properties of the session *)

(** A question of the chip-mismatch kind. *)
Definition is_confirm (e : Event) : bool :=
  match e with
  | Confirm _ => true
  | _ => false
  end.

Definition no_confirm (e : Event) : bool := negb (is_confirm e).

(** An erase or flash invocation names the chip [chip]. *)
Definition names_chip (chip : string) (e : Event) : bool :=
  match e with
  | Exec argv =>
      if is_erase e || is_flash e
      then option_string_eqb (flag_value "--chip" argv) chip
      else true
  | _ => true
  end.

(** A world whose programmer sees a CH32V30X, and where all works. *)
Definition sees_30x : World := scripted any_file "CH32V30X" (fun _ _ => true).

(** The first chip of the table that the status output names. *)
Definition first_chip_in (output : string) : option string :=
  find (fun chip_type => PyStr.contains chip_type output) known_chips.

(** The events of a reset that worked: the command, then fifty waits of a
    tenth of a second. *)
Definition reset_done_events : list Event :=
  Exec reset_command :: repeat (Sleep 100) 50.

(** A programmer that names two chips and exits with an error status. *)
Definition two_chips_failing : World :=
  {| respond := fun h e =>
       match e return reply e with
       | Shell _ => completed 1 "CH32V003 CH32V30X"
       | other => respond all_fine h other
       end;
     abspath := abspath all_fine;
     markup := markup all_fine |}.


(** [m] emits at most [n] events that satisfy [P]. *)
Definition emits_at_most {A : Type} (P : Event -> bool) (n : nat) (m : M A)
  : Prop :=
  forall w h, List.length (filter P (snd (m w h))) <= n.

Definition isnt (P : Event -> bool) (e : Event) : bool := negb (P e).

(** The event [e], issued after the history [h], is a flash invocation that
    succeeded. *)
Definition flash_succeeded (w : World) (h : list Event) (e : Event) : bool :=
  match e with
  | Exec argv => is_flash e && exit_ok (respond w h (Exec argv))
  | _ => false
  end.

(** None of the events [evs], issued after [h], is one. *)
Fixpoint no_flash_succeeded (w : World) (h : list Event) (evs : list Event)
  : bool :=
  match evs with
  | [] => true
  | e :: rest =>
      negb (flash_succeeded w h e) && no_flash_succeeded w (h ++ [e]) rest
  end.

(** The last of the events [evs] is a flash invocation that succeeded, and
    it is the only one. *)
Definition ends_on_success (w : World) (h : list Event) (evs : list Event)
  : Prop :=
  exists pre argv,
    evs = pre ++ [Exec argv] /\
    flash_succeeded w (h ++ pre) (Exec argv) = true /\
    no_flash_succeeded w h pre = true.

(** [m] wins, as [won] tells from its value, exactly on a flash invocation
    that succeeds, and stops there. *)
Definition flash_decides {A : Type} (won : A -> bool) (m : M A) : Prop :=
  forall w h,
    match m w h with
    | (Return a, evs) =>
        if won a then ends_on_success w h evs
        else no_flash_succeeded w h evs = true
    | (Raise _, evs) => no_flash_succeeded w h evs = true
    end.

Definition is_some {A : Type} (o : option A) : bool :=
  match o with
  | Some _ => true
  | None => false
  end.

(** The flash invocations of the speed loop of the branch for the other
    devices, over the speeds that are left: one to three attempts at a
    speed, and the next speed only after three. *)
Inductive escalates (chip firmware_path : string)
  : list string -> list Event -> Prop :=
| esc_none : escalates chip firmware_path [] []
| esc_stop speed rest k :
    1 <= k <= max_retries ->
    escalates chip firmware_path (speed :: rest)
      (repeat (Exec (flash_argv chip speed firmware_path)) k)
| esc_next speed rest evs :
    escalates chip firmware_path rest evs ->
    escalates chip firmware_path (speed :: rest)
      (repeat (Exec (flash_argv chip speed firmware_path)) max_retries
         ++ evs).

(** The index of the speed the options start at, where they hold one. *)
Definition start_of (wlink_options : options) : option nat :=
  match wlink_options with
  | Some d =>
      match dict_get "speed" d with
      | Some speed => list_index speed other_speeds
      | None => None
      end
  | None => None
  end.

(** The speeds a session on that branch may flash at, in order. *)
Definition speeds_from (wlink_options : options) : list string :=
  match start_of wlink_options with
  | Some idx => skipn idx other_speeds
  | None => []
  end.

(** The start of [flash_device]: the firmware path is settled and checked. *)
Definition checked_path (firmware_path device_type : option string)
  : M string :=
  firmware_path <-
    (if negb (PyStr.truthy firmware_path)
     then get_firmware_path device_type
     else ret firmware_path) ;;
  fp <-
    match firmware_path with
    | Some p =>
        if negb (PyStr.truthy firmware_path) then raise not_found
        else
          e <- ask (PathExists p) ;;
          if negb e then raise not_found else ret p
    | None => raise not_found
    end ;;
  check_firmware_file fp ;;; ret fp.

(** The speed loop of the branch for the other devices. *)
Definition other_speed_loop (flash_chip firmware_path : string)
    (wlink_options : options) (speeds : list string)
  : M (option (bool * options)) :=
  for_each speeds (fun speed =>
    power_cycle_wait ;;;
    for_each (seq 0 max_retries)
      (other_flash_attempt flash_chip firmware_path wlink_options speed)).

(** Every erase invocation succeeds, whenever it is made. *)
Definition erase_always_works (w : World) : Prop :=
  forall h argv,
    is_erase (Exec argv) = true -> exit_ok (respond w h (Exec argv)) = true.

(** Options that name no speed at all. *)
Definition no_speed : options := Some [("erase_method", "default")].

(** The session reaches no flash invocation, or its flash invocations
    follow the speed list. *)
Definition escalates_or_silent (wlink_options : options) {A : Type}
    (m : M A) : Prop :=
  forall w h,
    filter is_flash (snd (m w h)) = [] \/
    exists chip firmware_path,
      escalates chip firmware_path (speeds_from wlink_options)
        (filter is_flash (snd (m w h))).



(** *** Where the firmware path comes from *)

Definition is_save (e : Event) : bool :=
  match e with
  | SaveFirmwarePath _ => true
  | _ => false
  end.

Definition is_select (e : Event) : bool :=
  match e with
  | Select _ _ => true
  | _ => false
  end.

(** The default firmware of a VSD board. *)
Definition default_firmware (device_type : string) : string :=
  if PyStr.contains "CH32V003" device_type
  then "./Firmware_Link/FIRMWARE_CH32V003.bin"
  else "./Firmware_Link/WCH-LinkE-APP-IAP.bin".

(** A programmer whose status names both VSD chips, and a user who says
    yes. *)
Definition sees_both : World :=
  scripted any_file "CH32V003 CH32V30X" (fun _ _ => true).

(** ** The configuration file *)

#[local] Set Warnings "-register-all".

(** A JSON value, as [json.load] gives it; [JNull] is [None]. *)
Inductive Json : Type :=
| JNull
| JBool (b : bool)
| JNumber (n : Z)
| JString (s : string)
| JArray (items : list Json)
| JObject (fields : list (string * Json)).

(** The file [~/.wch_flasher_config.json]: not there, there but not to be
    read as JSON, or holding a value. *)
Inductive ConfigFile : Type :=
| Missing
| Unreadable
| Stored (v : Json).

(** What happens when the file is opened for writing and dumped to: all
    goes well, the [open] raises and the file is as before, or the dump
    raises after the file was truncated. *)
Inductive WriteOutcome : Type :=
| Written
| OpenFailed
| DumpFailed.

Definition write_config (o : WriteOutcome) (v : Json) (before : ConfigFile)
  : ConfigFile :=
  match o with
  | Written => Stored v
  | OpenFailed => before
  | DumpFailed => Unreadable
  end.

(** [d[k] = v] *)
Fixpoint dict_set {V : Type} (k : string) (v : V) (d : dict V) : dict V :=
  match d with
  | [] => [(k, v)]
  | (k', v') :: rest =>
      if String.eqb k k' then (k, v) :: rest
      else (k', v') :: dict_set k v rest
  end.

(** [load_saved_path]: the [firmware_path] of the stored object; [None] for
    a missing file, and for whatever raises on the way. *)
Definition load_saved_path (config_file : ConfigFile) : Json :=
  match config_file with
  | Stored (JObject fields) =>
      match dict_get "firmware_path" fields with
      | Some v => v
      | None => JNull
      end
  | _ => JNull
  end.

(** [save_firmware_path]: the file is written anew, with the path alone;
    an error is a warning. *)
Definition save_firmware_path (o : WriteOutcome) (path : string)
    (config_file : ConfigFile) : ConfigFile :=
  write_config o (JObject [("firmware_path", JString path)]) config_file.

(** [save_default_options]: the stored object, or an empty one where there
    is no file, gets the key [default_options] and is written back; a file
    that cannot be read, or holds no object, is left alone. *)
Definition save_default_options (o : WriteOutcome) (options : Json)
    (config_file : ConfigFile) : ConfigFile :=
  match config_file with
  | Missing =>
      write_config o (JObject [("default_options", options)]) config_file
  | Stored (JObject fields) =>
      write_config o (JObject (dict_set "default_options" options fields))
        config_file
  | _ => config_file
  end.

(** ** What [run_command] prints *)


(** The arrow that starts a printed line. *)
Definition arrow : string := "► ".

(** [pieces[1]]: the second piece, or an [IndexError] ([None]). *)
Definition second (pieces : list string) : option string :=
  nth_error pieces 1.

(** The body of the loop of [run_command] for a line that is not blank: the
    line as it is printed, or [None] where a subscript raises. *)
Definition clean (line : string) : option string :=
  let clean_line :=
    PyText.replace "[0m" ""
      (PyText.strip (last (PyText.split_on "]" line) "")) in
  if PyStr.contains "Connected to" clean_line then
    option_map (String.append "► Connected to")
      (second (PyText.split_on "Connected to" clean_line))
  else if PyText.endswith "chip by poweroff" (PyText.lower clean_line) then
    Some "► Erase chip by PowerOff"
  else if PyStr.contains "ChipID:" clean_line then
    option_map (String.append "► Chip ID:")
      (second (PyText.split_on "ChipID:" clean_line))
  else if PyStr.contains "ESIG:" clean_line then
    option_map (String.append "► Chip ESIG:")
      (second (PyText.split_on "ESIG:" clean_line))
  else if PyStr.contains "Flash protected:" clean_line then
    option_map (String.append "► Flash protected:")
      (second (PyText.split_on "protected:" clean_line))
  else if PyStr.contains "Read" clean_line
          && PyStr.contains ".bin" clean_line then
    Some "► Reading firmware file..."
  else if PyStr.contains "Flashing" clean_line then
    Some "► Flashing firmware to device..."
  else if PyStr.contains "Read protected:" clean_line then
    option_map (String.append "► Read protected:")
      (second (PyText.split_on "protected:" clean_line))
  else if PyStr.contains "Flash done" clean_line then
    Some "► Flash completed successfully"
  else if PyStr.contains "Now reset" clean_line then
    Some "► Resetting device..."
  else if String.prefix "► " clean_line then Some clean_line
  else Some ("► " +++ PyText.strip clean_line).

(** The loop over the lines of the output: the lines that are printed, or
    [None] where the cleaning raises. *)
Fixpoint clean_each (lines : list string) : option (list string) :=
  match lines with
  | [] => Some []
  | line :: rest =>
      if PyStr.truthy (Some (PyText.strip line)) then
        match clean line with
        | Some clean_line =>
            match clean_each rest with
            | Some cleaned_lines =>
                if negb (String.eqb (PyText.strip clean_line) "►")
                then Some (clean_line :: cleaned_lines)
                else Some cleaned_lines
            | None => None
            end
        | None => None
        end
      else clean_each rest
  end.

Definition cleaned_lines (output : string) : option (list string) :=
  clean_each (PyText.splitlines output).

(** No closing bracket in [s]: no tag is left. *)
Fixpoint no_close (s : string) : bool :=
  match s with
  | EmptyString => true
  | String c rest => negb (Ascii.eqb c "]") && no_close rest
  end.

(** A line as [run_command] prints it: it starts with the arrow, it is more
    than the arrow, and it holds no closing bracket. *)
Definition printed_line (l : string) : Prop :=
  String.prefix arrow l = true /\
  PyText.strip l <> "►" /\
  no_close l = true.

(** The line after the tags, the white space and the colour reset went. *)
Definition untagged (line : string) : string :=
  PyText.replace "[0m" ""
    (PyText.strip (last (PyText.split_on "]" line) "")).

(** * Lemmas and theorems *)

(** ** Running computations step by step *)

Section Steps.

Context {A B : Type}.

Lemma run_bind_raise (m : M A) (f : A -> M B) w h e ev1 :
  m w h = (Raise e, ev1) ->
  bind m f w h = (Raise e, ev1).
Proof.
  intros Hm. unfold bind. rewrite Hm. reflexivity.
Qed.

(** What a [bind] did, read backwards. *)
Lemma bind_inv (m : M A) (f : A -> M B) w h r evs :
  bind m f w h = (r, evs) ->
  (exists e, m w h = (Raise e, evs) /\ r = Raise e) \/
  (exists a ev1 ev2,
      m w h = (Return a, ev1) /\ f a w (h ++ ev1) = (r, ev2) /\
      evs = ev1 ++ ev2).
Proof.
  unfold bind. destruct (m w h) as [[a | e] ev1].
  - destruct (f a w (h ++ ev1)) as [r2 ev2] eqn:Hf. intros H.
    inversion H; subst. right. exists a, ev1, ev2. auto.
  - intros H. inversion H; subst. left. exists e. auto.
Qed.

End Steps.

(** ** Two invariants of a computation, whatever the world answers *)

Section Invariants.

Context {A B : Type}.
Variable P : Event -> bool.

Lemma emits_ret (a : A) : emits_only P (ret a).
Proof. intros w h. reflexivity. Qed.

Lemma emits_raise (e : exn) : emits_only P (@raise A e).
Proof. intros w h. reflexivity. Qed.

Lemma emits_ask (e : Event) : P e = true -> emits_only P (ask e).
Proof. intros He w h. simpl. rewrite He. reflexivity. Qed.

Lemma emits_abspath (p : string) : emits_only P (get_abspath p).
Proof. intros w h. reflexivity. Qed.

Lemma emits_print (before data after : string) :
  emits_only P (console_print before data after).
Proof.
  intros w h. unfold console_print.
  destruct (print_error w before data after); reflexivity.
Qed.

Lemma emits_bind (m : M A) (f : A -> M B) :
  emits_only P m ->
  (forall a, emits_only P (f a)) ->
  emits_only P (bind m f).
Proof.
  intros Hm Hf w h. unfold bind. specialize (Hm w h).
  destruct (m w h) as [[a | e] ev1]; simpl in *.
  - specialize (Hf a w (h ++ ev1)).
    destruct (f a w (h ++ ev1)) as [r ev2]. simpl in *.
    rewrite forallb_app, Hm, Hf. reflexivity.
  - exact Hm.
Qed.

Lemma emits_try (m : M A) (handler : exn -> M A) :
  emits_only P m ->
  (forall e, emits_only P (handler e)) ->
  emits_only P (try_except m handler).
Proof.
  intros Hm Hh w h. unfold try_except. specialize (Hm w h).
  destruct (m w h) as [[a | e] ev1]; simpl in *.
  - exact Hm.
  - specialize (Hh e w (h ++ ev1)).
    destruct (handler e w (h ++ ev1)) as [r ev2]. simpl in *.
    rewrite forallb_app, Hm, Hh. reflexivity.
Qed.

Lemma returns_ret (Q : A -> Prop) (a : A) : Q a -> returns_only Q (ret a).
Proof. intros Ha w h a' evs H. inversion H; subst. exact Ha. Qed.

Lemma returns_raise (Q : A -> Prop) (e : exn) : returns_only Q (@raise A e).
Proof. intros w h a evs H. discriminate H. Qed.

Lemma returns_bind (Q : B -> Prop) (m : M A) (f : A -> M B) :
  (forall a, returns_only Q (f a)) ->
  returns_only Q (bind m f).
Proof.
  intros Hf w h b evs H. apply bind_inv in H.
  destruct H as [(e & _ & He) | (a & ev1 & ev2 & _ & Hfa & _)].
  - discriminate He.
  - exact (Hf a w (h ++ ev1) b ev2 Hfa).
Qed.

End Invariants.

Lemma emits_for_each {A R : Type} (P : Event -> bool) (xs : list A)
    (body : A -> M (option R)) :
  (forall x, emits_only P (body x)) ->
  emits_only P (for_each xs body).
Proof.
  intros Hbody. induction xs as [| x rest IH]; simpl.
  - apply emits_ret.
  - apply emits_bind; [apply Hbody |].
    intros [v |]; [apply emits_ret | exact IH].
Qed.

Lemma returns_for_each {A R : Type} (Q : R -> Prop) (xs : list A)
    (body : A -> M (option R)) :
  (forall x, returns_only (fun r => forall v, r = Some v -> Q v) (body x)) ->
  returns_only (fun r => forall v, r = Some v -> Q v) (for_each xs body).
Proof.
  intros Hbody. induction xs as [| x rest IH]; simpl.
  - apply returns_ret. discriminate.
  - intros w h r evs H. apply bind_inv in H.
    destruct H as [(e & _ & He) | (o & ev1 & ev2 & Hm & Hk & _)];
      [discriminate He |].
    destruct o as [v |].
    + inversion Hk; subst. intros v' Hv. inversion Hv; subst.
      exact (Hbody x w h (Some v') ev1 Hm v' eq_refl).
    + exact (IH w (h ++ ev1) r ev2 Hk).
Qed.

Lemma emits_progress_loop (P : Event -> bool) delay advance :
  P (Sleep delay) = true ->
  forall fuel completed,
    emits_only P (progress_loop fuel completed advance delay).
Proof.
  intros Hs. induction fuel as [| fuel IH]; intros completed;
    cbn [progress_loop].
  - apply emits_ret.
  - destruct (100 <=? completed); [apply emits_ret |].
    apply emits_bind; [apply emits_ask; exact Hs | intros _; apply IH].
Qed.

Create HintDb session.
#[local] Hint Unfold flash_device on_error flash_device_body vsd_session other_session
  other_flash_phase starting_speed_index other_flash_attempt
  vsd_flash_attempt power_cycle_wait erase_attempts resolve_mismatch
  reset_device detect_chip_type subscript get_firmware_path
  check_firmware_file run_command report_failure progress_wait sleep
  : session.

(** Decompose a computation along its structure. *)
Ltac emits_step :=
  lazymatch goal with
  | |- emits_only _ (ret _) => apply emits_ret
  | |- emits_only _ (raise _) => apply emits_raise
  | |- emits_only _ (get_abspath _) => apply emits_abspath
  | |- emits_only _ (console_print _ _ _) => apply emits_print
  | |- emits_only _ (ask _) => apply emits_ask; reflexivity
  | |- emits_only _ (progress_loop _ _ _ _) =>
      apply emits_progress_loop; reflexivity
  | |- emits_only _ (bind _ _) => apply emits_bind; [| intros ?]
  | |- emits_only _ (try_except _ _) => apply emits_try; [| intros ?]
  | |- emits_only _ (for_each _ _) => apply emits_for_each; intros ?
  | |- emits_only _ (if ?b then _ else _) => destruct b
  | |- emits_only _ (match ?x with _ => _ end) => destruct x
  end.

Ltac emits := autounfold with session; cbv zeta; repeat emits_step.

Lemma emits_on_error (P : Event -> bool) wlink_options e :
  emits_only P (on_error wlink_options e).
Proof. emits. Qed.

(** ** No command string reaches a shell, the status query apart *)

Lemma flash_device_shell_is_status firmware_path wlink_options device_type :
  emits_only shell_is_status
    (flash_device firmware_path wlink_options device_type).
Proof. emits. Qed.

(** ** The boundary of [flash_device] *)

Lemma returns_bind_with {A B : Type} (Q1 : A -> Prop) (Q : B -> Prop)
    (m : M A) (f : A -> M B) :
  returns_only Q1 m ->
  (forall a, Q1 a -> returns_only Q (f a)) ->
  returns_only Q (bind m f).
Proof.
  intros Hm Hf w h b evs H. apply bind_inv in H.
  destruct H as [(e & _ & He) | (a & ev1 & ev2 & Hma & Hfa & _)].
  - discriminate He.
  - exact (Hf a (Hm w h a ev1 Hma) w (h ++ ev1) b ev2 Hfa).
Qed.

Ltac returns_step :=
  lazymatch goal with
  | |- returns_only _ (ret _) =>
      apply returns_ret; try (intros ? ?); congruence
  | |- returns_only _ (raise _) => apply returns_raise
  | |- returns_only _ (bind _ _) => apply returns_bind; intros ?
  | |- returns_only _ (if ?b then _ else _) => destruct b
  | |- returns_only _ (match ?x with _ => _ end) => destruct x
  end.

Lemma vsd_flash_attempt_returns chip_type firmware_path wlink_options speed
    attempt :
  returns_only (success_with wlink_options)
    (vsd_flash_attempt chip_type firmware_path wlink_options speed attempt).
Proof.
  unfold success_with, vsd_flash_attempt. repeat returns_step.
Qed.

Lemma other_flash_attempt_returns flash_chip firmware_path wlink_options speed
    attempt :
  returns_only (success_with wlink_options)
    (other_flash_attempt flash_chip firmware_path wlink_options speed attempt).
Proof.
  unfold success_with, other_flash_attempt. repeat returns_step.
Qed.

Lemma finish_returns wlink_options (res : option (bool * options)) :
  success_with wlink_options res ->
  returns_only (fun v => v = (true, wlink_options))
    (match res with
     | Some result => ret result
     | None => raise flash_exhausted
     end).
Proof.
  intros Hres. destruct res as [v |].
  - apply returns_ret. exact (Hres v eq_refl).
  - apply returns_raise.
Qed.

Lemma vsd_session_returns firmware_path wlink_options actual_chip :
  returns_only (fun v => v = (true, wlink_options))
    (vsd_session firmware_path wlink_options actual_chip).
Proof.
  unfold vsd_session. cbv zeta.
  apply returns_bind; intros _. apply returns_bind; intros r.
  destruct (negb r); [apply returns_raise |].
  apply returns_bind_with with (Q1 := success_with wlink_options).
  - apply returns_for_each; intros speed.
    apply returns_for_each; intros attempt.
    apply vsd_flash_attempt_returns.
  - apply finish_returns.
Qed.

Lemma other_session_returns firmware_path wlink_options :
  returns_only (fun v => v = (true, wlink_options))
    (other_session firmware_path wlink_options).
Proof.
  unfold other_session, other_flash_phase.
  do 6 (apply returns_bind; intros ?).
  apply returns_bind_with with (Q1 := success_with wlink_options).
  - apply returns_for_each; intros speed.
    apply returns_bind; intros _.
    apply returns_for_each; intros attempt.
    apply other_flash_attempt_returns.
  - apply finish_returns.
Qed.

(** When the body of [flash_device] returns at all, it returns success and
    the options it was given. *)
Lemma flash_device_body_returns firmware_path wlink_options device_type :
  returns_only (fun v => v = (true, wlink_options))
    (flash_device_body firmware_path wlink_options device_type).
Proof.
  unfold flash_device_body.
  do 6 (apply returns_bind; intros ?).
  destruct (PyStr.contains _ _).
  - apply vsd_session_returns.
  - apply other_session_returns.
Qed.

(** What the two handlers make of the body. *)
Lemma on_error_run wlink_options e w h :
  on_error wlink_options e w h = (fst (on_error wlink_options e w []), []).
Proof.
  destruct e; unfold on_error, bind, console_print;
    destruct (print_error w _ _ _); reflexivity.
Qed.

Lemma flash_device_unfold firmware_path wlink_options device_type w h :
  flash_device firmware_path wlink_options device_type w h =
  match flash_device_body firmware_path wlink_options device_type w h with
  | (Return v, evs) => (Return v, evs)
  | (Raise e, evs) => (fst (on_error wlink_options e w []), evs)
  end.
Proof.
  unfold flash_device, try_except.
  destruct (flash_device_body _ _ _ w h) as [[v | e] evs]; [reflexivity |].
  rewrite on_error_run. cbn [fst snd]. rewrite app_nil_r. reflexivity.
Qed.

Lemma snd_flash_device firmware_path wlink_options device_type w h :
  snd (flash_device firmware_path wlink_options device_type w h)
  = snd (flash_device_body firmware_path wlink_options device_type w h).
Proof.
  rewrite flash_device_unfold.
  destruct (flash_device_body _ _ _ w h) as [[v | e] evs]; reflexivity.
Qed.

(** A handler answers [(False, wlink_options)], or raises what the console
    raised. *)
Lemma on_error_outcome wlink_options e w :
  fst (on_error wlink_options e w []) = Return (false, wlink_options) \/
  exists msg, fst (on_error wlink_options e w []) = Raise (MarkupError msg).
Proof.
  destruct e; unfold on_error, bind, console_print;
    destruct (print_error w _ _ _); cbn; eauto.
Qed.

(** An error whose text holds no opening bracket is printed. *)
Lemma on_error_plain wlink_options e w :
  PyStr.contains "[" (exn_text e) = false ->
  fst (on_error wlink_options e w []) = Return (false, wlink_options).
Proof.
  intros Hplain.
  destruct e; cbn [exn_text] in Hplain;
    unfold on_error, bind, console_print, print_error;
    rewrite Hplain; reflexivity.
Qed.

(** C9, where the code departs.  The firmware path names a directory, and
    there is a closing tag in the name.  The body raises the validation
    error; the handler that is to turn it into [(False, wlink_options)]
    prints the message as markup, the console raises [MarkupError] on the
    tag, and that exception leaves [flash_device]. *)
Theorem flash_device_raises_from_its_handler :
  flash_device_body (Some "fw[/x].bin") (Some high_speed)
    (Some "Other WCH-Link devices") (with_directory "fw[/x].bin") []
  = (Raise (FirmwareUpdateError "Not a valid file: fw[/x].bin"),
     [PathExists "fw[/x].bin"; PathExists "fw[/x].bin";
      PathIsFile "fw[/x].bin"]) /\
  flash_device (Some "fw[/x].bin") (Some high_speed)
    (Some "Other WCH-Link devices") (with_directory "fw[/x].bin") []
  = (Raise (MarkupError
              "closing tag '[/x]' at position 54 doesn't match any open tag"),
     [PathExists "fw[/x].bin"; PathExists "fw[/x].bin";
      PathIsFile "fw[/x].bin"]).
Proof. vm_compute. split; reflexivity. Qed.

(** The same directory under a name without a tag: the error is caught. *)
Example a_directory_is_refused :
  flash_device (Some "fw.bin") (Some high_speed)
    (Some "Other WCH-Link devices") (with_directory "fw.bin") []
  = (Return (false, Some high_speed),
     [PathExists "fw.bin"; PathExists "fw.bin"; PathIsFile "fw.bin"]).
Proof. vm_compute. reflexivity. Qed.

(** C10. On every return path the options of the returned pair are the
    [wlink_options] passed in: with [True] where the body returned, with
    [False] where the body raised and the handler printed the error. *)
Theorem flash_device_returns_given_options firmware_path wlink_options
    device_type w h success o evs :
  flash_device firmware_path wlink_options device_type w h
  = (Return (success, o), evs) ->
  o = wlink_options /\
  if success
  then flash_device_body firmware_path wlink_options device_type w h
       = (Return (true, wlink_options), evs)
  else exists e,
         flash_device_body firmware_path wlink_options device_type w h
         = (Raise e, evs).
Proof.
  rewrite flash_device_unfold.
  destruct (flash_device_body _ _ _ w h) as [[v | e] evs'] eqn:Hbody.
  - apply flash_device_body_returns in Hbody. subst v.
    intros H. inversion H; subst. auto.
  - destruct (on_error_outcome wlink_options e w) as [Hr | (msg & Hr)];
      rewrite Hr; intros H; inversion H; subst. eauto.
Qed.

Lemma flash_device_returns_given_options_witness :
  (Some high_speed = Some high_speed /\
   flash_device_body (Some "fw.bin") (Some high_speed)
     (Some "Other WCH-Link devices") all_fine []
   = (Return (true, Some high_speed),
      snd (flash_device (Some "fw.bin") (Some high_speed)
             (Some "Other WCH-Link devices") all_fine []))) /\
  (Some high_speed = Some high_speed /\
   exists e,
     flash_device_body (Some "fw.bin") (Some high_speed)
       (Some "VSD Squadran Mini (CH32V003)") erase_broken []
     = (Raise e,
        snd (flash_device (Some "fw.bin") (Some high_speed)
               (Some "VSD Squadran Mini (CH32V003)") erase_broken []))).
Proof.
  split.
  - apply (flash_device_returns_given_options (Some "fw.bin")
             (Some high_speed) (Some "Other WCH-Link devices") all_fine []
             true (Some high_speed)).
    vm_compute. reflexivity.
  - apply (flash_device_returns_given_options (Some "fw.bin")
             (Some high_speed) (Some "VSD Squadran Mini (CH32V003)")
             erase_broken [] false (Some high_speed)).
    vm_compute. reflexivity.
Defined.

(** ** Running a computation whose replies are known *)

Lemma bind_ask {B : Type} (e : Event) (f : reply e -> M B) w h :
  bind (ask e) f w h =
  let (r, evs) := f (respond w h e) w (h ++ [e]) in (r, e :: evs).
Proof. reflexivity. Qed.

Lemma bind_ret {A B : Type} (a : A) (f : A -> M B) w h :
  bind (ret a) f w h = f a w h.
Proof.
  unfold bind, ret. rewrite app_nil_r. destruct (f a w h); reflexivity.
Qed.

Lemma bind_raise {A B : Type} (e : exn) (f : A -> M B) w h :
  bind (raise e) f w h = (Raise e, []).
Proof. reflexivity. Qed.

Lemma bind_abspath {B : Type} (p : string) (f : string -> M B) w h :
  bind (get_abspath p) f w h = f (abspath w p) w h.
Proof.
  unfold bind, get_abspath. rewrite app_nil_r.
  destruct (f (abspath w p) w h); reflexivity.
Qed.

Lemma bind_bind {A B C : Type} (m : M A) (f : A -> M B) (g : B -> M C) w h :
  bind (bind m f) g w h = bind m (fun a => bind (f a) g) w h.
Proof.
  unfold bind. destruct (m w h) as [[a | e] ev1]; [| reflexivity].
  destruct (f a w (h ++ ev1)) as [[b | e] ev2]; [| reflexivity].
  rewrite <- app_assoc.
  destruct (g b w (h ++ ev1 ++ ev2)) as [r ev3].
  rewrite <- app_assoc. reflexivity.
Qed.

Lemma report_failure_run r w h :
  report_failure r w h
  = (match report_error w r with
     | None => Return tt
     | Some e => Raise e
     end, []).
Proof.
  unfold report_error. destruct r as [p | text]; cbn [report_failure].
  - cbv zeta.
    repeat (destruct (PyStr.contains _ (stderr p)); [reflexivity |]).
    unfold console_print. destruct (print_error w _ _ _); reflexivity.
  - unfold console_print. destruct (print_error w _ _ _); reflexivity.
Qed.

Lemma run_command_run command w h :
  run_command command w h
  = (run_result w (respond w h (Exec (PyStr.split command))),
     [Exec (PyStr.split command)]).
Proof.
  unfold run_command, run_result. rewrite bind_ask.
  destruct (exit_ok _); [reflexivity |].
  unfold bind. rewrite report_failure_run.
  destruct (report_error w _); reflexivity.
Qed.

Lemma bind_run_command {B : Type} command (f : bool -> M B) w h :
  bind (run_command command) f w h =
  match run_result w (respond w h (Exec (PyStr.split command))) with
  | Return ok =>
      let (r, evs) := f ok w (h ++ [Exec (PyStr.split command)]) in
      (r, Exec (PyStr.split command) :: evs)
  | Raise e => (Raise e, [Exec (PyStr.split command)])
  end.
Proof.
  unfold bind at 1. rewrite run_command_run.
  destruct (run_result w _); reflexivity.
Qed.

Lemma run_result_ok w r : exit_ok r = true -> run_result w r = Return true.
Proof. intros H. unfold run_result. rewrite H. reflexivity. Qed.

Lemma run_result_failed w r :
  exit_ok r = false -> report_error w r = None ->
  run_result w r = Return false.
Proof. intros H Hp. unfold run_result. rewrite H, Hp. reflexivity. Qed.

(** A tool that says nothing where it fails leaves nothing to trip on. *)
Lemma scripted_prints files status tool :
  failures_are_printed (scripted files status tool).
Proof. intros h argv _. reflexivity. Qed.

(** ** A firmware file that is not there *)

Lemma truthy_nonempty (p : string) :
  p <> "" -> PyStr.truthy (Some p) = true.
Proof. destruct p; [congruence | reflexivity]. Qed.

(** The session up to the chip detection, for a path that was passed in. *)
Lemma body_given_path p wlink_options device_type w h :
  p <> "" ->
  flash_device_body (Some p) wlink_options device_type w h =
  bind (ask (PathExists p))
    (fun e =>
       if negb e then raise not_found
       else check_firmware_file p ;;;
            chip_info <- detect_chip_type ;;
            dt <- match device_type with
                  | Some dt => ret dt
                  | None => raise none_not_iterable
                  end ;;
            dt <- resolve_mismatch dt (expected_chip_of dt)
                    (find_actual_chip chip_info) ;;
            if PyStr.contains "VSD Squadran Mini" dt
            then vsd_session p wlink_options (find_actual_chip chip_info)
            else other_session p wlink_options) w h.
Proof.
  intros Hp. unfold flash_device_body.
  rewrite (truthy_nonempty p Hp). cbn [negb].
  rewrite bind_ret, (truthy_nonempty p Hp). cbn [negb].
  rewrite bind_bind, !bind_ask.
  destruct (respond w h (PathExists p)); cbn [negb].
  - rewrite bind_ret. reflexivity.
  - rewrite bind_raise. reflexivity.
Qed.

(** C8, as the code has it.  A path that is passed in, is not empty and
    does not name an existing regular file makes the body of [flash_device]
    fail on a validation error, a [FirmwareUpdateError], with no external
    tool invocation at all: the events of the call are checks of the path
    only.  Where the path does not exist, and where it holds no opening
    bracket, [flash_device] answers [(False, wlink_options)]. *)
Theorem missing_firmware_no_invocation p wlink_options device_type w h :
  p <> "" ->
  never_a_file w p ->
  exists msg evs,
    flash_device_body (Some p) wlink_options device_type w h
    = (Raise (FirmwareUpdateError msg), evs) /\
    snd (flash_device (Some p) wlink_options device_type w h) = evs /\
    forallb is_validation evs = true /\
    filter is_invocation evs = [] /\
    ((forall h', respond w h' (PathExists p) = false) \/
     PyStr.contains "[" p = false ->
     flash_device (Some p) wlink_options device_type w h
     = (Return (false, wlink_options), evs)).
Proof.
  intros Hp Hnever.
  assert (Hbody : exists msg evs,
             flash_device_body (Some p) wlink_options device_type w h
             = (Raise (FirmwareUpdateError msg), evs) /\
             forallb is_validation evs = true /\
             filter is_invocation evs = [] /\
             ((forall h', respond w h' (PathExists p) = false) \/
              PyStr.contains "[" p = false ->
              PyStr.contains "[" msg = false)).
  { rewrite (body_given_path p _ _ w h Hp). rewrite bind_ask.
    destruct (respond w h (PathExists p)) eqn:E1; cbn [negb].
    - unfold check_firmware_file. rewrite bind_bind, bind_ask.
      destruct (respond w (h ++ [PathExists p]) (PathExists p)) eqn:E2;
        cbn [negb].
      + rewrite bind_bind, bind_ask.
        destruct Hnever as [Hnone | Hnone];
          [rewrite Hnone in E1; discriminate E1 |].
        rewrite Hnone. cbn [negb]. rewrite bind_raise.
        eexists _, _. repeat split; try reflexivity.
        intros [Hgone | Hplain];
          [rewrite Hgone in E1; discriminate E1 | exact Hplain].
      + eexists _, _. rewrite bind_raise. repeat split; try reflexivity.
        intros [Hgone | Hplain];
          [rewrite Hgone in E1; discriminate E1 | exact Hplain].
    - eexists _, _. repeat split; reflexivity. }
  destruct Hbody as (msg & evs & Hb & Hv & Hi & Hm).
  exists msg, evs. rewrite snd_flash_device, flash_device_unfold, Hb.
  repeat split; auto.
  intros Hc. f_equal. apply on_error_plain. exact (Hm Hc).
Qed.

Lemma missing_firmware_no_invocation_witness :
  (exists msg evs,
      flash_device_body (Some "missing.bin") None
        (Some "Other WCH-Link devices") empty_disk []
      = (Raise (FirmwareUpdateError msg), evs) /\
      forallb is_validation evs = true /\
      filter is_invocation evs = [] /\
      flash_device (Some "missing.bin") None (Some "Other WCH-Link devices")
        empty_disk []
      = (Return (false, None), evs)) /\
  (exists msg evs,
      flash_device_body (Some "fw.bin") None
        (Some "Other WCH-Link devices") (with_directory "fw.bin") []
      = (Raise (FirmwareUpdateError msg), evs) /\
      forallb is_validation evs = true /\
      filter is_invocation evs = [] /\
      flash_device (Some "fw.bin") None (Some "Other WCH-Link devices")
        (with_directory "fw.bin") []
      = (Return (false, None), evs)).
Proof.
  split.
  - destruct (missing_firmware_no_invocation "missing.bin" None
                (Some "Other WCH-Link devices") empty_disk []
                ltac:(discriminate)
                (or_introl (fun h => eq_refl)))
      as (msg & evs & Hb & _ & Hv & Hi & Hret).
    exists msg, evs.
    split; [exact Hb | split; [exact Hv | split; [exact Hi |]]].
    apply Hret. left. intros h'. reflexivity.
  - destruct (missing_firmware_no_invocation "fw.bin" None
                (Some "Other WCH-Link devices") (with_directory "fw.bin") []
                ltac:(discriminate)
                (or_intror (fun h => eq_refl)))
      as (msg & evs & Hb & _ & Hv & Hi & Hret).
    exists msg, evs.
    split; [exact Hb | split; [exact Hv | split; [exact Hi |]]].
    apply Hret. right. reflexivity.
Defined.

(** C8, as stated, fails.  The empty path names no file; [flash_device]
    takes it for no path at all, asks the user for one, and goes on with the
    file the user names: the chip is erased and flashed. *)
Lemma an_empty_path_is_asked_for :
  never_a_file helpful_user "" /\
  flash_device (Some "") (Some high_speed) (Some "Other WCH-Link devices")
    helpful_user []
  = (Return (true, Some high_speed),
     [LoadSavedPath; PathPrompt "Enter firmware file path:" None]
       ++ firmware_checks "fw.bin"
       ++ [Shell "wlink status -v"; Shell "wlink status -v";
           Exec ["wlink"; "erase"; "--method"; "default"; "--chip";
                 "CH32V003"];
           Sleep 5000]
       ++ power_cycle_events
       ++ [Exec ["wlink"; "flash"; "--chip"; "CH32V003"; "--speed"; "high";
                 "fw.bin"]]).
Proof.
  split; [left; intros h; reflexivity | vm_compute; reflexivity].
Qed.

(** ** Erase failure *)

Lemma bind_sleep {B : Type} (ms : N) (f : unit -> M B) w h :
  bind (sleep ms) f w h =
  let (r, evs) := f (respond w h (Sleep ms)) w (h ++ [Sleep ms]) in
  (r, Sleep ms :: evs).
Proof. reflexivity. Qed.

Ltac exec :=
  repeat first
    [ rewrite bind_bind | rewrite bind_ask | rewrite bind_sleep
    | rewrite bind_ret | rewrite bind_raise | rewrite bind_abspath ].

Lemma erase_attempts_fail w h erase_cmd :
  erase_always_fails w ->
  failures_are_printed w ->
  is_erase (Exec (PyStr.split erase_cmd)) = true ->
  erase_attempts erase_cmd w h
  = (Raise erase_failed, failed_erase_events (PyStr.split erase_cmd)).
Proof.
  intros Hfail Hprint Hcmd. unfold erase_attempts.
  change (seq 0 max_retries) with [0; 1; 2]. cbn [for_each].
  assert (Hrun : forall h',
             run_result w (respond w h' (Exec (PyStr.split erase_cmd)))
             = Return false).
  { intros h'. apply run_result_failed;
      [apply Hfail, Hcmd | apply Hprint, Hfail, Hcmd]. }
  repeat (progress (exec; rewrite ?bind_run_command, ?Hrun;
                    cbn [max_retries Nat.ltb Nat.leb Nat.sub])).
  reflexivity.
Qed.

Lemma quiet_no_erase evs :
  forallb quiet evs = true -> existsb is_erase evs = false.
Proof.
  induction evs as [| e evs IH]; simpl; [reflexivity |].
  unfold quiet at 1. intros H.
  apply andb_true_iff in H. destruct H as [He Hrest].
  apply andb_true_iff in He. destruct He as [He _].
  apply negb_true_iff in He. rewrite He, (IH Hrest). reflexivity.
Qed.

Lemma quiet_no_flash evs :
  forallb quiet evs = true -> filter is_flash evs = [].
Proof.
  induction evs as [| e evs IH]; simpl; [reflexivity |].
  unfold quiet at 1. intros H.
  apply andb_true_iff in H. destruct H as [He Hrest].
  apply andb_true_iff in He. destruct He as [_ He].
  apply negb_true_iff in He. rewrite He. exact (IH Hrest).
Qed.

Lemma erase_is_not_flash argv :
  is_erase (Exec argv) = true -> is_flash (Exec argv) = false.
Proof.
  unfold is_erase, is_flash, is_wlink.
  destruct argv as [| prog [| sub rest]]; try discriminate.
  intros H. apply andb_true_iff in H. destruct H as [_ Hsub].
  apply String.eqb_eq in Hsub. subst sub.
  rewrite andb_false_r. reflexivity.
Qed.

Lemma failed_erase_no_flash argv :
  is_erase (Exec argv) = true ->
  filter is_flash (failed_erase_events argv) = [].
Proof.
  intros H. unfold failed_erase_events. cbn [filter].
  rewrite (erase_is_not_flash argv H). reflexivity.
Qed.

Lemma erase_fatal_bind {A B : Type} w (m : M A) (f : A -> M B) :
  emits_only quiet m ->
  (forall a, erase_fatal w (f a)) ->
  erase_fatal w (bind m f).
Proof.
  intros Hm Hf h. specialize (Hm w h). unfold bind.
  destruct (m w h) as [[a | e] ev1]; simpl in Hm.
  - specialize (Hf a (h ++ ev1)).
    destruct (f a w (h ++ ev1)) as [r ev2]. simpl in *.
    destruct Hf as [Hflash Hf]. split.
    + rewrite filter_app, (quiet_no_flash _ Hm), Hflash. reflexivity.
    + rewrite existsb_app, (quiet_no_erase _ Hm). simpl. intros Hex.
      destruct (Hf Hex) as (pre & argv & Heq & Hargv & Hpre).
      inversion Heq; subst. exists (ev1 ++ pre), argv.
      rewrite <- app_assoc, forallb_app, Hm, Hpre. auto.
  - simpl. split; [exact (quiet_no_flash _ Hm) |].
    intros Hex. rewrite (quiet_no_erase _ Hm) in Hex. discriminate Hex.
Qed.

Lemma erase_fatal_attempts {B : Type} w erase_cmd (f : option unit -> M B) :
  erase_always_fails w ->
  failures_are_printed w ->
  is_erase (Exec (PyStr.split erase_cmd)) = true ->
  erase_fatal w (bind (erase_attempts erase_cmd) f).
Proof.
  intros Hfail Hprint Hcmd h.
  rewrite (run_bind_raise _ _ _ _ _ _
             (erase_attempts_fail w h _ Hfail Hprint Hcmd)).
  split; [exact (failed_erase_no_flash _ Hcmd) |].
  intros _. exists [], (PyStr.split erase_cmd). auto.
Qed.

Lemma erase_fatal_body w firmware_path wlink_options device_type :
  erase_always_fails w ->
  failures_are_printed w ->
  erase_fatal w (flash_device_body firmware_path wlink_options device_type).
Proof.
  intros Hfail Hprint. unfold flash_device_body.
  apply erase_fatal_bind; [emits | intros fp0].
  apply erase_fatal_bind; [emits | intros fp].
  apply erase_fatal_bind; [emits | intros _].
  apply erase_fatal_bind; [emits | intros chip_info].
  apply erase_fatal_bind; [emits | intros dt0].
  apply erase_fatal_bind; [emits | intros dt].
  destruct (PyStr.contains _ dt).
  - unfold vsd_session. cbv zeta.
    apply erase_fatal_attempts; [exact Hfail | exact Hprint | reflexivity].
  - unfold other_session.
    apply erase_fatal_bind; [emits | intros chip_types].
    apply erase_fatal_bind; [emits | intros erase_chip].
    apply erase_fatal_bind; [emits | intros flash_chip].
    apply erase_fatal_attempts; [exact Hfail | exact Hprint | reflexivity].
Qed.

(** X18. Where every erase invocation fails and the failures are printed,
    a session issues no flash invocation; and a session that gets to the erase
    step makes exactly [max_retries] = 3 erase attempts, two seconds apart,
    then ends on the erase error: [flash_device] answers
    [(False, wlink_options)]. *)
Theorem erase_failure_ends_session firmware_path wlink_options device_type
    w h :
  erase_always_fails w ->
  failures_are_printed w ->
  filter is_flash
    (snd (flash_device firmware_path wlink_options device_type w h)) = [] /\
  (existsb is_erase
     (snd (flash_device firmware_path wlink_options device_type w h)) = true ->
   exists pre argv,
     flash_device_body firmware_path wlink_options device_type w h
     = (Raise erase_failed, pre ++ failed_erase_events argv) /\
     flash_device firmware_path wlink_options device_type w h
     = (Return (false, wlink_options), pre ++ failed_erase_events argv) /\
     is_erase (Exec argv) = true /\
     existsb is_erase pre = false /\
     List.length (filter is_erase (pre ++ failed_erase_events argv)) = max_retries).
Proof.
  intros Hfail Hprint.
  destruct (erase_fatal_body w firmware_path wlink_options device_type
              Hfail Hprint h) as [Hflash Herase].
  rewrite snd_flash_device. split; [exact Hflash |]. intros Hex.
  destruct (Herase Hex) as (pre & argv & Heq & Hargv & Hpre).
  exists pre, argv. rewrite flash_device_unfold, Heq.
  pose proof (quiet_no_erase _ Hpre) as Hnone.
  repeat split; auto.
  rewrite filter_app. unfold failed_erase_events. cbn [filter].
  rewrite Hargv.
  assert (Hf : filter is_erase pre = []).
  { clear - Hnone. induction pre as [| e pre IH]; [reflexivity |].
    simpl in *. apply orb_false_iff in Hnone. destruct Hnone as [He Hr].
    rewrite He. auto. }
  rewrite Hf. reflexivity.
Qed.

Lemma erase_broken_fails : erase_always_fails erase_broken.
Proof.
  intros h argv Hargv. unfold erase_broken, scripted, never. cbn [respond].
  fold (is_erase (Exec argv)). rewrite Hargv. reflexivity.
Qed.

Lemma erase_failure_ends_session_witness :
  filter is_flash
    (snd (flash_device (Some "fw.bin") (Some high_speed)
            (Some "VSD Squadran Mini (CH32V003)") erase_broken []))
  = [] /\
  exists pre argv,
    flash_device_body (Some "fw.bin") (Some high_speed)
      (Some "VSD Squadran Mini (CH32V003)") erase_broken []
    = (Raise erase_failed, pre ++ failed_erase_events argv) /\
    flash_device (Some "fw.bin") (Some high_speed)
      (Some "VSD Squadran Mini (CH32V003)") erase_broken []
    = (Return (false, Some high_speed), pre ++ failed_erase_events argv) /\
    is_erase (Exec argv) = true /\
    existsb is_erase pre = false /\
    List.length (filter is_erase (pre ++ failed_erase_events argv))
    = max_retries.
Proof.
  destruct (erase_failure_ends_session (Some "fw.bin") (Some high_speed)
              (Some "VSD Squadran Mini (CH32V003)") erase_broken []
              erase_broken_fails
              (scripted_prints any_file "CH32V003" (never "erase")))
    as [Hflash Herase].
  split; [exact Hflash |].
  apply Herase. vm_compute. reflexivity.
Defined.

(** That session, event by event. *)
Example erase_broken_session :
  flash_device (Some "fw.bin") (Some high_speed)
    (Some "VSD Squadran Mini (CH32V003)") erase_broken []
  = (Return (false, Some high_speed),
     firmware_checks "fw.bin"
       ++ [Shell "wlink status -v";
           Exec ["wlink"; "erase"; "--method"; "power-off"; "--chip";
                 "CH32V003"; "-v"];
           Sleep 2000;
           Exec ["wlink"; "erase"; "--method"; "power-off"; "--chip";
                 "CH32V003"; "-v"];
           Sleep 2000;
           Exec ["wlink"; "erase"; "--method"; "power-off"; "--chip";
                 "CH32V003"; "-v"]]).
Proof. vm_compute. reflexivity. Qed.

Lemma stuck_programmer_fails : erase_always_fails stuck_programmer.
Proof.
  intros h argv Hargv.
  unfold stuck_programmer, complaining, erase_broken, scripted, never.
  cbn [respond]. fold (is_erase (Exec argv)). rewrite Hargv. reflexivity.
Qed.

(** C3, where the code departs.  Every erase invocation fails, and the tool
    names a device between brackets on its error output.  [run_command]
    prints that output as markup, the console raises [MarkupError] on what
    it takes for a closing tag, and the exception leaves [run_command]: the
    erase is attempted once, not [max_retries] times, there is no wait and
    no erase error; the handler of [flash_device] trips on the same tag when
    it prints the message, and the exception leaves [flash_device] too. *)
Theorem erase_is_tried_once_where_the_report_fails :
  erase_always_fails stuck_programmer /\
  flash_device_body (Some "fw.bin") (Some high_speed)
    (Some "VSD Squadran Mini (CH32V003)") stuck_programmer []
  = (Raise (MarkupError
              "closing tag '[/dev/ttyACM0]' at position 35 doesn't match any open tag"),
     firmware_checks "fw.bin"
       ++ [Shell "wlink status -v";
           Exec ["wlink"; "erase"; "--method"; "power-off"; "--chip";
                 "CH32V003"; "-v"]]) /\
  flash_device (Some "fw.bin") (Some high_speed)
    (Some "VSD Squadran Mini (CH32V003)") stuck_programmer []
  = (Raise (MarkupError
              "closing tag '[/dev/ttyACM0]' at position 42 doesn't match any open tag"),
     firmware_checks "fw.bin"
       ++ [Shell "wlink status -v";
           Exec ["wlink"; "erase"; "--method"; "power-off"; "--chip";
                 "CH32V003"; "-v"]]) /\
  List.length
    (filter is_erase
       (snd (flash_device (Some "fw.bin") (Some high_speed)
               (Some "VSD Squadran Mini (CH32V003)") stuck_programmer [])))
  = 1.
Proof.
  split; [exact stuck_programmer_fails |].
  vm_compute. repeat split; reflexivity.
Qed.

(** ** What chip detection returns *)

Lemma dict_get_map {V : Type} (g : string -> V) (k : string) (l : list string)
    (v : V) :
  dict_get k (map (fun c => (c, g c)) l) = Some v ->
  exists c, In c l /\ v = g c.
Proof.
  induction l as [| c l IH]; simpl; [discriminate |].
  destruct (String.eqb k c).
  - intros H. inversion H. exists c. auto.
  - intros H. destruct (IH H) as (c' & Hin & Hv). exists c'. auto.
Qed.

Lemma subscript_chip_configs k :
  returns_only is_chip_config (subscript chip_configs k).
Proof.
  unfold subscript. destruct (dict_get k chip_configs) as [v |] eqn:Hget.
  - apply returns_ret. exact (dict_get_map chip_config k known_chips v Hget).
  - apply returns_raise.
Qed.

Lemma returns_try {A : Type} (Q : A -> Prop) (m : M A) (handler : exn -> M A) :
  returns_only Q m ->
  (forall e, returns_only Q (handler e)) ->
  returns_only Q (try_except m handler).
Proof.
  intros Hm Hh w h a evs. unfold try_except.
  destruct (m w h) as [[a' | e] ev1] eqn:Hrun.
  - intros H. inversion H; subst. exact (Hm w h _ _ Hrun).
  - destruct (handler e w (h ++ ev1)) as [r ev2] eqn:Hhandler.
    intros H. inversion H; subst. exact (Hh e w _ _ _ Hhandler).
Qed.

Lemma detect_chip_type_returns : returns_only is_chip_config detect_chip_type.
Proof.
  unfold detect_chip_type. apply returns_try.
  - apply returns_bind; intros r. destruct r as [p | text].
    + destruct (find _ _).
      * apply subscript_chip_configs.
      * destruct (PyStr.contains _ _);
          [apply subscript_chip_configs |].
        apply returns_bind; intros _. apply returns_raise.
    + apply returns_raise.
  - intros e. apply returns_raise.
Qed.

(** The keys of a chip configuration are [erase_chip] and [flash_chip]:
    none of them names a chip, so no chip is ever taken as detected. *)
Lemma find_actual_chip_none d :
  is_chip_config d -> find_actual_chip d = None.
Proof. intros (chip & _ & Hd). subst d. reflexivity. Qed.

Lemma resolve_mismatch_none device_type expected_chip :
  resolve_mismatch device_type expected_chip None = ret device_type.
Proof. destruct expected_chip; reflexivity. Qed.

(** ** Progress bars *)

Lemma progress_loop_run advance delay w :
  forall fuel completed h,
    progress_loop fuel completed advance delay w h
    = (Return tt, progress_events fuel completed advance delay).
Proof.
  induction fuel as [| fuel IH]; intros completed h;
    cbn [progress_loop progress_events]; [reflexivity |].
  destruct (100 <=? completed); [reflexivity |].
  rewrite bind_sleep, IH. reflexivity.
Qed.

(** The loop stops because the bar is full, not because the fuel of the
    model ran out: one more unit of fuel changes nothing. *)
Lemma progress_wait_full advance delay :
  0 < advance ->
  progress_events 100 0 advance delay = progress_events 101 0 advance delay.
Proof.
  intros Hadv.
  assert (H : forall fuel completed,
             100 <= completed + fuel * advance ->
             progress_events fuel completed advance delay
             = progress_events (S fuel) completed advance delay).
  { induction fuel as [| fuel IH]; intros completed Hc.
    - cbn [progress_events]. simpl in Hc.
      rewrite Nat.add_0_r in Hc. apply Nat.leb_le in Hc. rewrite Hc.
      reflexivity.
    - cbn [progress_events]. destruct (100 <=? completed); [reflexivity |].
      f_equal. apply IH. simpl in Hc. lia. }
  apply H. nia.
Qed.

Lemma bind_known {A B : Type} (m : M A) (f : A -> M B) w h a ev1 :
  m w h = (Return a, ev1) ->
  bind m f w h = let (r, ev2) := f a w (h ++ ev1) in (r, ev1 ++ ev2).
Proof. intros Hm. unfold bind. rewrite Hm. reflexivity. Qed.

Lemma sleep_run ms w h : sleep ms w h = (Return tt, [Sleep ms]).
Proof.
  unfold sleep, ask. destruct (respond w h (Sleep ms)). reflexivity.
Qed.

Lemma power_cycle_wait_run w h :
  power_cycle_wait w h = (Return tt, power_cycle_events).
Proof.
  unfold power_cycle_wait, progress_wait, power_cycle_events.
  rewrite (bind_known _ _ _ _ _ _ (progress_loop_run 1 100 w 100 0 h)).
  rewrite (bind_known _ _ _ _ _ _ (progress_loop_run 1 50 w 100 0 _)).
  rewrite (bind_known _ _ _ _ _ _ (progress_loop_run 1 50 w 100 0 _)).
  rewrite sleep_run. reflexivity.
Qed.

Lemma power_cycle_no_flash : filter is_flash power_cycle_events = [].
Proof. vm_compute. reflexivity. Qed.

(** ** Speed escalation on the branch for the other devices *)

(** For a known chip, the command line of a flash invocation is one, and it
    carries the speed after [--speed]. *)
Lemma flash_argv_speed chip speed firmware_path :
  In chip known_chips ->
  In speed other_speeds ->
  is_flash (Exec (flash_argv chip speed firmware_path)) = true /\
  flag_value "--speed" (flash_argv chip speed firmware_path) = Some speed.
Proof.
  unfold known_chips, other_speeds. intros Hchip Hspeed.
  repeat (destruct Hchip as [Hchip | Hchip]; [subst chip |]);
    try contradiction;
    repeat (destruct Hspeed as [Hspeed | Hspeed]; [subst speed |]);
    try contradiction;
    split; reflexivity.
Qed.

Lemma high_is_first : list_index "high" other_speeds = Some 0.
Proof. reflexivity. Qed.

Lemma flash_argv_eq chip speed firmware_path :
  PyStr.split (other_flash_cmd chip speed firmware_path)
  = flash_argv chip speed firmware_path.
Proof. reflexivity. Qed.

Lemma other_attempts_fail w h chip firmware_path wlink_options speed :
  (forall h',
      run_result w (respond w h' (Exec (flash_argv chip speed firmware_path)))
      = Return false) ->
  for_each (seq 0 max_retries)
    (other_flash_attempt chip firmware_path wlink_options speed) w h
  = (Return None, failed_flash_events chip speed firmware_path).
Proof.
  intros Hfail. unfold other_flash_attempt, failed_flash_events.
  change (seq 0 max_retries) with [0; 1; 2]. cbn [for_each].
  repeat (progress (exec; rewrite ?bind_run_command, ?flash_argv_eq, ?Hfail;
                    cbn [max_retries Nat.ltb Nat.leb Nat.sub])).
  destruct (negb (String.eqb speed (last other_speeds ""))); exec; reflexivity.
Qed.

Lemma other_attempts_succeed w h chip firmware_path wlink_options speed :
  (forall h', exit_ok (respond w h' (Exec (flash_argv chip speed firmware_path)))
              = true) ->
  for_each (seq 0 max_retries)
    (other_flash_attempt chip firmware_path wlink_options speed) w h
  = (Return (Some (true, wlink_options)),
     [Exec (flash_argv chip speed firmware_path)]).
Proof.
  intros Hok. unfold other_flash_attempt.
  change (seq 0 max_retries) with [0; 1; 2]. cbn [for_each].
  exec. rewrite bind_run_command, flash_argv_eq, (run_result_ok _ _ (Hok _)).
  exec. reflexivity.
Qed.

Lemma other_flash_phase_escalates w h chip firmware_path d :
  flash_works_only_at w "low" ->
  failures_are_printed w ->
  In chip known_chips ->
  dict_get "speed" d = Some "high" ->
  other_flash_phase chip firmware_path (Some d) w h
  = (Return (true, Some d), escalation_trace chip firmware_path).
Proof.
  intros Hw Hprint Hchip Hspeed.
  destruct (flash_argv_speed chip "high" firmware_path Hchip)
    as [Fh Sh]; [simpl; auto |].
  destruct (flash_argv_speed chip "medium" firmware_path Hchip)
    as [Fm Sm]; [simpl; auto |].
  destruct (flash_argv_speed chip "low" firmware_path Hchip)
    as [Fl Sl]; [simpl; auto |].
  assert (Hhigh : forall h',
             run_result w
               (respond w h' (Exec (flash_argv chip "high" firmware_path)))
             = Return false).
  { intros h'.
    assert (Hex : exit_ok (respond w h'
                             (Exec (flash_argv chip "high" firmware_path)))
                  = false)
      by (rewrite (Hw _ _ Fh), Sh; reflexivity).
    apply run_result_failed; [exact Hex | apply Hprint, Hex]. }
  assert (Hmed : forall h',
             run_result w
               (respond w h' (Exec (flash_argv chip "medium" firmware_path)))
             = Return false).
  { intros h'.
    assert (Hex : exit_ok (respond w h'
                             (Exec (flash_argv chip "medium" firmware_path)))
                  = false)
      by (rewrite (Hw _ _ Fm), Sm; reflexivity).
    apply run_result_failed; [exact Hex | apply Hprint, Hex]. }
  assert (Hlow : forall h',
             exit_ok (respond w h' (Exec (flash_argv chip "low" firmware_path)))
             = true)
    by (intros h'; rewrite (Hw _ _ Fl), Sl; reflexivity).
  unfold other_flash_phase, starting_speed_index, subscript.
  rewrite Hspeed. exec. rewrite high_is_first. exec.
  cbn [skipn other_speeds for_each].
  exec. rewrite (bind_known _ _ _ _ _ _ (power_cycle_wait_run w _)).
  rewrite (bind_known _ _ _ _ _ _
             (other_attempts_fail w _ chip firmware_path _ "high" Hhigh)).
  exec. rewrite (bind_known _ _ _ _ _ _ (power_cycle_wait_run w _)).
  rewrite (bind_known _ _ _ _ _ _
             (other_attempts_fail w _ chip firmware_path _ "medium" Hmed)).
  exec. rewrite (bind_known _ _ _ _ _ _ (power_cycle_wait_run w _)).
  rewrite (bind_known _ _ _ _ _ _
             (other_attempts_succeed w _ chip firmware_path _ "low" Hlow)).
  exec. unfold ret, escalation_trace. rewrite !app_nil_r. reflexivity.
Qed.

Lemma not_flash_filter evs :
  forallb not_flash evs = true -> filter is_flash evs = [].
Proof.
  induction evs as [| e evs IH]; simpl; [reflexivity |].
  unfold not_flash at 1. intros H.
  apply andb_true_iff in H. destruct H as [He Hrest].
  apply negb_true_iff in He. rewrite He. exact (IH Hrest).
Qed.

Lemma not_flash_existsb evs :
  forallb not_flash evs = true -> existsb is_flash evs = false.
Proof.
  induction evs as [| e evs IH]; simpl; [reflexivity |].
  unfold not_flash at 1. intros H.
  apply andb_true_iff in H. destruct H as [He Hrest].
  apply negb_true_iff in He. rewrite He. exact (IH Hrest).
Qed.

Lemma failed_flash_events_filter chip speed firmware_path :
  is_flash (Exec (flash_argv chip speed firmware_path)) = true ->
  filter is_flash (failed_flash_events chip speed firmware_path)
  = repeat (Exec (flash_argv chip speed firmware_path)) max_retries.
Proof.
  intros HF. unfold failed_flash_events.
  rewrite filter_app. cbn [filter]. rewrite HF.
  destruct (negb _); reflexivity.
Qed.

Lemma escalation_trace_filter chip firmware_path :
  In chip known_chips ->
  filter is_flash (escalation_trace chip firmware_path)
  = escalation chip firmware_path.
Proof.
  intros Hchip.
  destruct (flash_argv_speed chip "high" firmware_path Hchip)
    as [Fh _]; [simpl; auto |].
  destruct (flash_argv_speed chip "medium" firmware_path Hchip)
    as [Fm _]; [simpl; auto |].
  destruct (flash_argv_speed chip "low" firmware_path Hchip)
    as [Fl _]; [simpl; auto |].
  unfold escalation_trace, escalation.
  rewrite !filter_app, power_cycle_no_flash.
  rewrite (failed_flash_events_filter _ _ _ Fh).
  rewrite (failed_flash_events_filter _ _ _ Fm).
  cbn [filter]. rewrite Fl. reflexivity.
Qed.

Lemma escalating_bind {A : Type} (Q : A -> Prop) w d (m : M A)
    (f : A -> M (bool * options)) :
  emits_only not_flash m ->
  returns_only Q m ->
  (forall a, Q a -> escalating w d (f a)) ->
  escalating w d (bind m f).
Proof.
  intros Hm HQ Hf h. specialize (Hm w h). unfold bind.
  destruct (m w h) as [[a | e] ev1] eqn:Hrun; cbn [snd] in Hm.
  - specialize (Hf a (HQ w h a ev1 Hrun) (h ++ ev1)).
    destruct (f a w (h ++ ev1)) as [r ev2]. cbn [snd] in *.
    rewrite existsb_app, (not_flash_existsb _ Hm). cbn [orb]. intros Hex.
    destruct (Hf Hex) as (pre & chip & fp & Hchip & Heq & Hpre).
    inversion Heq; subst. exists (ev1 ++ pre), chip, fp.
    rewrite <- app_assoc, forallb_app, Hm, Hpre. auto.
  - cbn [snd]. intros Hex. rewrite (not_flash_existsb _ Hm) in Hex.
    discriminate Hex.
Qed.

Lemma returns_any {A : Type} (m : M A) : returns_only (fun _ => True) m.
Proof. intros w h a evs _. exact I. Qed.

Lemma escalating_other_session w d firmware_path :
  flash_works_only_at w "low" ->
  failures_are_printed w ->
  dict_get "speed" d = Some "high" ->
  escalating w d (other_session firmware_path (Some d)).
Proof.
  intros Hw Hprint Hspeed. unfold other_session.
  apply escalating_bind with (Q := is_chip_config);
    [emits | apply detect_chip_type_returns |].
  intros chip_types (chip & Hchip & Hcfg). subst chip_types.
  apply escalating_bind with (Q := fun c => c = chip);
    [emits | apply returns_ret; reflexivity |].
  intros erase_chip ->.
  apply escalating_bind with (Q := fun c => c = chip);
    [emits | apply returns_ret; reflexivity |].
  intros flash_chip ->.
  apply escalating_bind with (Q := fun _ => True);
    [emits | apply returns_any |].
  intros _ _.
  apply escalating_bind with (Q := fun _ => True);
    [emits | apply returns_any |].
  intros _ _ h _.
  exists [], chip, firmware_path.
  rewrite (other_flash_phase_escalates w h chip firmware_path d Hw Hprint
             Hchip Hspeed).
  auto.
Qed.

Lemma escalating_body w d firmware_path device_type :
  flash_works_only_at w "low" ->
  failures_are_printed w ->
  dict_get "speed" d = Some "high" ->
  PyStr.contains "VSD Squadran Mini" device_type = false ->
  escalating w d (flash_device_body firmware_path (Some d) (Some device_type)).
Proof.
  intros Hw Hprint Hspeed Hdt. unfold flash_device_body.
  apply escalating_bind with (Q := fun _ => True);
    [emits | apply returns_any |].
  intros fp0 _.
  apply escalating_bind with (Q := fun _ => True);
    [emits | apply returns_any |].
  intros fp _.
  apply escalating_bind with (Q := fun _ => True);
    [emits | apply returns_any |].
  intros _ _.
  apply escalating_bind with (Q := is_chip_config);
    [emits | apply detect_chip_type_returns |].
  intros chip_info Hinfo. rewrite (find_actual_chip_none _ Hinfo).
  apply escalating_bind with (Q := fun dt => dt = device_type);
    [emits | apply returns_ret; reflexivity |].
  intros dt ->. rewrite resolve_mismatch_none.
  apply escalating_bind with (Q := fun dt => dt = device_type);
    [emits | apply returns_ret; reflexivity |].
  intros dt ->. rewrite Hdt.
  apply escalating_other_session; assumption.
Qed.

(** C1, as the code has it.  On the branch for the other devices, with the
    starting speed [high], a tool on which flashing works at [low] only and
    a console that prints what the tool says when it fails, a session that
    gets to flashing issues three failed flash invocations at [high], three
    at [medium] and one successful one at [low], and [flash_device] answers
    [True] together with the options it was given: their [speed] is still
    [high]. *)
Theorem escalation_succeeds_at_low firmware_path d device_type w h :
  flash_works_only_at w "low" ->
  failures_are_printed w ->
  dict_get "speed" d = Some "high" ->
  PyStr.contains "VSD Squadran Mini" device_type = false ->
  existsb is_flash
    (snd (flash_device firmware_path (Some d) (Some device_type) w h)) = true ->
  exists pre chip fp,
    In chip known_chips /\
    flash_device firmware_path (Some d) (Some device_type) w h
    = (Return (true, Some d), pre ++ escalation_trace chip fp) /\
    filter is_flash (pre ++ escalation_trace chip fp) = escalation chip fp /\
    List.length (escalation chip fp) = 2 * max_retries + 1.
Proof.
  intros Hw Hprint Hspeed Hdt.
  pose proof (escalating_body w d firmware_path device_type Hw Hprint Hspeed
                Hdt h) as Hbody.
  rewrite snd_flash_device. intros Hex.
  destruct (Hbody Hex) as (pre & chip & fp & Hchip & Heq & Hpre).
  exists pre, chip, fp. rewrite flash_device_unfold, Heq.
  repeat split; auto.
  rewrite filter_app, (not_flash_filter _ Hpre).
  apply escalation_trace_filter. exact Hchip.
Qed.

Lemma slow_link_flashes_at_low : flash_works_only_at slow_link "low".
Proof.
  intros h argv Hflash. unfold slow_link, scripted, flashes_only_at.
  cbn [respond]. rewrite Hflash.
  destruct (option_string_eqb _ _); reflexivity.
Qed.

Lemma escalation_succeeds_at_low_witness :
  exists pre chip fp,
    In chip known_chips /\
    flash_device (Some "fw.bin") (Some high_speed)
      (Some "Other WCH-Link devices") slow_link []
    = (Return (true, Some high_speed), pre ++ escalation_trace chip fp) /\
    filter is_flash (pre ++ escalation_trace chip fp) = escalation chip fp /\
    List.length (escalation chip fp) = 2 * max_retries + 1.
Proof.
  apply (escalation_succeeds_at_low (Some "fw.bin") high_speed
           "Other WCH-Link devices" slow_link []).
  - exact slow_link_flashes_at_low.
  - exact (scripted_prints any_file "CH32V20X" (flashes_only_at "low")).
  - reflexivity.
  - reflexivity.
  - vm_compute. reflexivity.
Defined.

(** C1, as stated, fails: the tool works at [low] only, the session starts
    at [high], fails six times and succeeds at the seventh invocation, and
    the options returned do not carry the speed [low]. *)
Lemma returned_speed_is_not_low :
  flash_works_only_at slow_link "low" /\
  map (flag_value "--speed")
    (map (fun e => match e with Exec argv => argv | _ => [] end)
       (filter is_flash
          (snd (flash_device (Some "fw.bin") (Some high_speed)
                  (Some "Other WCH-Link devices") slow_link []))))
  = [Some "high"; Some "high"; Some "high";
     Some "medium"; Some "medium"; Some "medium"; Some "low"] /\
  ~ (exists o,
        fst (flash_device (Some "fw.bin") (Some high_speed)
               (Some "Other WCH-Link devices") slow_link [])
        = Return (true, o) /\
        speed_of o = Some "low").
Proof.
  split; [exact slow_link_flashes_at_low |].
  split; [vm_compute; reflexivity |].
  intros (o & Hret & Hspeed).
  vm_compute in Hret. inversion Hret; subst o.
  vm_compute in Hspeed. discriminate Hspeed.
Qed.

(** ** Shells *)

Lemma device_command_no_shell e :
  is_device_command e = true -> is_shell e = false.
Proof.
  destruct e; try reflexivity. discriminate.
Qed.

Lemma emits_in {A : Type} (P : Event -> bool) (m : M A) w h e :
  emits_only P m -> In e (snd (m w h)) -> P e = true.
Proof.
  intros Hm Hin. specialize (Hm w h).
  rewrite forallb_forall in Hm. exact (Hm e Hin).
Qed.

Lemma get_device_type_shell : emits_only shell_is_constant get_device_type.
Proof. unfold get_device_type. emits. Qed.

Lemma check_device_connection_shell :
  emits_only shell_is_constant check_device_connection.
Proof. unfold check_device_connection. emits. Qed.

(** C7, as the code has it.  In a flash session the erase, flash and reset
    invocations are run without a shell, from a list of tokens; the only
    command string that reaches a shell is the constant status query of the
    chip detection.  The device selection and the connection check hand
    constant command strings to a shell too. *)
Theorem shell_only_for_constant_queries firmware_path wlink_options
    device_type w h :
  (forall e,
      In e (snd (flash_device firmware_path wlink_options device_type w h)) ->
      (is_device_command e = true -> is_shell e = false) /\
      (is_shell e = true -> e = Shell status_command)) /\
  forallb shell_is_constant (snd (get_device_type w h)) = true /\
  forallb shell_is_constant (snd (check_device_connection w h)) = true.
Proof.
  split; [| split].
  - intros e Hin. split; [apply device_command_no_shell |].
    pose proof (emits_in _ _ w h e
                  (flash_device_shell_is_status firmware_path wlink_options
                     device_type) Hin) as He.
    destruct e; try discriminate. intros _.
    apply String.eqb_eq in He. rewrite He. reflexivity.
  - apply get_device_type_shell.
  - apply check_device_connection_shell.
Qed.

(** C7, as stated, fails: a session in which everything works hands a
    command string to a shell. *)
Lemma detection_goes_through_a_shell :
  ~ (forall e,
        In e (snd (flash_device (Some "fw.bin") (Some high_speed)
                     (Some "Other WCH-Link devices") all_fine [])) ->
        is_invocation e = true -> is_shell e = false).
Proof.
  intros H. specialize (H (Shell "wlink status -v")).
  assert (Hin : In (Shell "wlink status -v")
                  (snd (flash_device (Some "fw.bin") (Some high_speed)
                          (Some "Other WCH-Link devices") all_fine []))).
  { vm_compute. do 4 right. left. reflexivity. }
  specialize (H Hin eq_refl). discriminate H.
Qed.

(** ** Fixed speed and fixed erase method *)

Lemma emits_bind_with {A B : Type} (P : Event -> bool) (Q : A -> Prop)
    (m : M A) (f : A -> M B) :
  emits_only P m ->
  returns_only Q m ->
  (forall a, Q a -> emits_only P (f a)) ->
  emits_only P (bind m f).
Proof.
  intros Hm HQ Hf w h. unfold bind. specialize (Hm w h).
  destruct (m w h) as [[a | e] ev1] eqn:Hrun; cbn [snd] in *.
  - specialize (Hf a (HQ w h a ev1 Hrun) w (h ++ ev1)).
    destruct (f a w (h ++ ev1)) as [r ev2]. cbn [snd] in *.
    rewrite forallb_app, Hm, Hf. reflexivity.
  - exact Hm.
Qed.

(** The session after the firmware file was checked, for a device type that
    is given: no chip is taken as detected, so the device type stands. *)
Lemma emits_after_detection (P : Event -> bool) firmware_path wlink_options
    device_type (vsd : bool) :
  PyStr.contains "VSD Squadran Mini" device_type = vsd ->
  P (Shell status_command) = true ->
  emits_only P
    (if vsd then vsd_session firmware_path wlink_options None
     else other_session firmware_path wlink_options) ->
  emits_only P
    (chip_info <- detect_chip_type ;;
     dt <- match Some device_type with
           | Some dt => ret dt
           | None => raise none_not_iterable
           end ;;
     dt <- resolve_mismatch dt (expected_chip_of dt)
             (find_actual_chip chip_info) ;;
     if PyStr.contains "VSD Squadran Mini" dt
     then vsd_session firmware_path wlink_options (find_actual_chip chip_info)
     else other_session firmware_path wlink_options).
Proof.
  intros Hvsd Hstatus Hsession.
  apply emits_bind_with with (Q := is_chip_config);
    [unfold detect_chip_type, subscript; repeat emits_step;
     apply emits_ask; exact Hstatus
    | apply detect_chip_type_returns |].
  intros chip_info Hinfo. rewrite (find_actual_chip_none _ Hinfo).
  apply emits_bind_with with (Q := fun dt => dt = device_type);
    [apply emits_ret | apply returns_ret; reflexivity |].
  intros dt ->. rewrite resolve_mismatch_none.
  apply emits_bind_with with (Q := fun dt => dt = device_type);
    [apply emits_ret | apply returns_ret; reflexivity |].
  intros dt ->. rewrite Hvsd. exact Hsession.
Qed.

(** On the VSD branch every flash invocation is the fixed one, whatever the
    speed the loop is at. *)
Lemma vsd_flash_is_low_and_verified firmware_path wlink_options device_type :
  PyStr.contains "VSD Squadran Mini" device_type = true ->
  emits_only low_and_verified
    (flash_device firmware_path wlink_options (Some device_type)).
Proof.
  intros Hdt. unfold flash_device, flash_device_body.
  apply emits_try; [| intros e; apply emits_on_error].
  apply emits_bind; [emits | intros fp0].
  apply emits_bind; [emits | intros fp].
  apply emits_bind; [emits | intros _].
  apply (emits_after_detection low_and_verified fp wlink_options device_type
           true Hdt eq_refl).
  emits.
Qed.

(** The erase method is fixed by the branch, whatever the options say. *)
Lemma erase_method_is_fixed firmware_path wlink_options device_type :
  emits_only
    (erases_with
       (if PyStr.contains "VSD Squadran Mini" device_type
        then "power-off" else "default"))
    (flash_device firmware_path wlink_options (Some device_type)).
Proof.
  unfold flash_device, flash_device_body.
  apply emits_try; [| intros e; apply emits_on_error].
  apply emits_bind; [emits | intros fp0].
  apply emits_bind; [emits | intros fp].
  apply emits_bind; [emits | intros _].
  apply (emits_after_detection _ fp wlink_options device_type _ eq_refl);
    [reflexivity |].
  destruct (PyStr.contains "VSD Squadran Mini" device_type); emits.
Qed.

(** C2, where the code departs.  For the fixed-speed profile, with a tool
    that never manages to flash, every flash invocation runs at [low] with
    [--verify] and the session fails, but after nine invocations:
    [max_retries] for each entry of the speed list, not [max_retries] in
    all. *)
Theorem fixed_speed_is_tried_nine_times :
  fst (flash_device (Some "fw.bin") (Some high_speed)
         (Some "VSD Squadran Mini (CH32V003)") flash_broken [])
  = Return (false, Some high_speed) /\
  map argv_of
    (filter is_flash
       (snd (flash_device (Some "fw.bin") (Some high_speed)
               (Some "VSD Squadran Mini (CH32V003)") flash_broken [])))
  = repeat ["wlink"; "flash"; "--chip"; "CH32V003"; "--speed"; "low";
            "--verify"; "/work/fw.bin"]
      (List.length vsd_speeds * max_retries) /\
  List.length vsd_speeds * max_retries = 9.
Proof. vm_compute. repeat split; reflexivity. Qed.

(** C6, where the code departs.  The user picked the erase method
    [pin-rst]; the erase invocation of the session asks for [default]. *)
Theorem chosen_erase_method_is_ignored :
  dict_get "erase_method" high_speed = Some "pin-rst" /\
  map argv_of
    (filter is_erase
       (snd (flash_device (Some "fw.bin") (Some high_speed)
               (Some "Other WCH-Link devices") all_fine [])))
  = [["wlink"; "erase"; "--method"; "default"; "--chip"; "CH32V003"]] /\
  fst (flash_device (Some "fw.bin") (Some high_speed)
         (Some "Other WCH-Link devices") all_fine [])
  = Return (true, Some high_speed).
Proof. vm_compute. repeat split; reflexivity. Qed.

(** ** Reset failure *)




(** *** What a computation raises *)

Section Raises.

Context {A B : Type}.
Variable Q : exn -> Prop.








End Raises.





(** *** The reset right after the erase *)

Lemma reset_wait_events : progress_events 100 0 2 100 = repeat (Sleep 100) 50.
Proof. vm_compute. reflexivity. Qed.

Lemma reset_device_run w h :
  reset_device w h
  = if exit_ok (respond w h (Exec reset_command))
    then (Return true, reset_done_events)
    else (Return false, [Exec reset_command]).
Proof.
  unfold reset_device, progress_wait. rewrite bind_ask.
  destruct (exit_ok (respond w h (Exec reset_command))); [| reflexivity].
  rewrite (bind_known _ _ _ _ _ _ (progress_loop_run 2 100 w 100 0 _)).
  rewrite reset_wait_events. unfold ret, reset_done_events.
  rewrite app_nil_r. reflexivity.
Qed.






(** *** The resets between two flash attempts *)






(** The reset after the erase fails: the session ends there. *)
Example failed_reset_after_erase_ends_the_session :
  flash_device (Some "fw.bin") (Some high_speed)
    (Some "VSD Squadran Mini (CH32V003)") reset_broken []
  = (Return (false, Some high_speed),
     firmware_checks "fw.bin"
       ++ [Shell "wlink status -v";
           Exec ["wlink"; "erase"; "--method"; "power-off"; "--chip";
                 "CH32V003"; "-v"];
           Exec ["wlink"; "reset"]]).
Proof. vm_compute. reflexivity. Qed.

(** A reset fails between two flash attempts (no wait for the device
    follows it): the session goes on, and succeeds at the second attempt. *)
Example failed_reset_between_attempts_is_harmless :
  flash_device (Some "fw.bin") (Some high_speed)
    (Some "VSD Squadran Mini (CH32V003)")
    (scripted any_file "CH32V003" flaky) []
  = (Return (true, Some high_speed),
     firmware_checks "fw.bin"
       ++ [Shell "wlink status -v";
           Exec ["wlink"; "erase"; "--method"; "power-off"; "--chip";
                 "CH32V003"; "-v"]]
       ++ reset_done_events
       ++ [PathExists "/work/fw.bin";
           Exec ["wlink"; "flash"; "--chip"; "CH32V003"; "--speed"; "low";
                 "--verify"; "/work/fw.bin"];
           Exec ["wlink"; "reset"];
           Sleep 2000;
           PathExists "/work/fw.bin";
           Exec ["wlink"; "flash"; "--chip"; "CH32V003"; "--speed"; "low";
                 "--verify"; "/work/fw.bin"]]).
Proof. vm_compute. reflexivity. Qed.

(** ** Validation of the firmware file *)









(** *** What is flashed is the file that was checked *)











(** In that session the path that is checked and flashed is the one passed
    in. *)
Example the_path_passed_in_is_checked :
  settled_path (Some "fw.bin") (Some "Other WCH-Link devices") all_fine []
  = (Return (Some "fw.bin"), []) /\
  filter is_flash
    (snd (flash_device (Some "fw.bin") (Some high_speed)
            (Some "Other WCH-Link devices") all_fine []))
  = [Exec (PyStr.split (other_flash_cmd "CH32V003" "high" "fw.bin"))].
Proof. vm_compute. split; reflexivity. Qed.


(** ** The model on small inputs *)

Example split_drops_white_space :
  PyStr.split "wlink  erase --chip CH32V003 "
  = ["wlink"; "erase"; "--chip"; "CH32V003"].
Proof. reflexivity. Qed.

Example split_cuts_a_path_with_a_space :
  PyStr.split (other_flash_cmd "CH582" "low" "my fw.bin")
  = ["wlink"; "flash"; "--chip"; "CH582"; "--speed"; "low"; "my"; "fw.bin"].
Proof. reflexivity. Qed.

Example contains_finds_the_board :
  PyStr.contains "VSD Squadran Mini" "VSD Squadran Mini (CH32V30X)" = true /\
  PyStr.contains "VSD Squadran Mini" "Other WCH-Link devices" = false.
Proof. split; reflexivity. Qed.

Example detection_takes_the_first_key :
  fst (detect_chip_type
         (scripted any_file "CH32V003 on WCH-LinkE-CH32V305" (fun _ _ => true))
         [])
  = Return (chip_config "CH32V003").
Proof. vm_compute. reflexivity. Qed.

(** The errors that are not a [FirmwareUpdateError] end in
    [(False, wlink_options)] too: no device type, no options, options
    without a speed, a speed that is not in the list. *)
Example no_device_type_is_caught :
  flash_device_body (Some "fw.bin") (Some high_speed) None all_fine []
  = (Raise none_not_iterable,
     firmware_checks "fw.bin" ++ [Shell status_command]) /\
  fst (flash_device (Some "fw.bin") (Some high_speed) None all_fine [])
  = Return (false, Some high_speed).
Proof. vm_compute. split; reflexivity. Qed.

Example no_options_is_caught :
  fst (flash_device_body (Some "fw.bin") None (Some "Other WCH-Link devices")
         all_fine [])
  = Raise (OtherException "'NoneType' object is not subscriptable") /\
  fst (flash_device (Some "fw.bin") None (Some "Other WCH-Link devices")
         all_fine [])
  = Return (false, None).
Proof. vm_compute. split; reflexivity. Qed.

Example missing_speed_is_caught :
  fst (flash_device_body (Some "fw.bin") (Some [("erase_method", "power-off")])
         (Some "Other WCH-Link devices") all_fine [])
  = Raise (key_error "speed") /\
  fst (flash_device (Some "fw.bin") (Some [("erase_method", "power-off")])
         (Some "Other WCH-Link devices") all_fine [])
  = Return (false, Some [("erase_method", "power-off")]).
Proof. vm_compute. split; reflexivity. Qed.

Example unknown_speed_is_caught :
  fst (flash_device_body (Some "fw.bin") (Some [("speed", "turbo")])
         (Some "Other WCH-Link devices") all_fine [])
  = Raise (OtherException "'turbo' is not in list") /\
  fst (flash_device (Some "fw.bin") (Some [("speed", "turbo")])
         (Some "Other WCH-Link devices") all_fine [])
  = Return (false, Some [("speed", "turbo")]).
Proof. vm_compute. split; reflexivity. Qed.

(** With no path passed in and no saved one, the user is asked; a user who
    gives none ends the session before any invocation. *)
Example no_path_given_is_caught :
  flash_device None (Some high_speed) (Some "Other WCH-Link devices")
    all_fine []
  = (Return (false, Some high_speed),
     [LoadSavedPath; PathPrompt "Enter firmware file path:" None]).
Proof. vm_compute. reflexivity. Qed.

(** The first flash attempt succeeds: one erase, one flash, nothing more. *)
Example first_attempt_succeeds :
  filter is_invocation
    (snd (flash_device (Some "fw.bin") (Some high_speed)
            (Some "Other WCH-Link devices") all_fine []))
  = [Shell "wlink status -v"; Shell "wlink status -v";
     Exec ["wlink"; "erase"; "--method"; "default"; "--chip"; "CH32V003"];
     Exec ["wlink"; "flash"; "--chip"; "CH32V003"; "--speed"; "high";
           "fw.bin"]].
Proof. vm_compute. reflexivity. Qed.

(** * Further properties *)

(** ** The chip-mismatch check *)

(** X1. [flash_device] never asks the chip-mismatch question.  The keys of
    what [detect_chip_type] returns are [erase_chip] and [flash_chip], so no
    chip is ever taken as detected, and the check of the declared device
    type against the detected chip compares with nothing. *)
Theorem mismatch_is_never_asked firmware_path wlink_options device_type w h :
  existsb is_confirm
    (snd (flash_device firmware_path wlink_options device_type w h)) = false.
Proof.
  assert (Hemits : emits_only no_confirm
                     (flash_device firmware_path wlink_options device_type)).
  { unfold flash_device, flash_device_body.
    apply emits_try; [| intros e; apply emits_on_error].
    apply emits_bind; [emits | intros fp0].
    apply emits_bind; [emits | intros fp].
    apply emits_bind; [emits | intros _].
    apply emits_bind_with with (Q := is_chip_config);
      [emits | apply detect_chip_type_returns |].
    intros chip_info Hinfo. rewrite (find_actual_chip_none _ Hinfo).
    apply emits_bind; [emits | intros dt].
    rewrite resolve_mismatch_none. emits. }
  specialize (Hemits w h).
  induction (snd (flash_device firmware_path wlink_options device_type w h))
    as [| e evs IH]; [reflexivity |].
  simpl in *. apply andb_true_iff in Hemits. destruct Hemits as [He Hrest].
  unfold no_confirm in He. apply negb_true_iff in He.
  rewrite He. exact (IH Hrest).
Qed.

(** X2. On the VSD branch every erase and every flash invocation names the
    chip CH32V003, whatever the device type says and whatever the
    programmer detects. *)
Theorem vsd_branch_names_ch32v003 firmware_path wlink_options device_type
    w h :
  PyStr.contains "VSD Squadran Mini" device_type = true ->
  forallb (names_chip "CH32V003")
    (snd (flash_device firmware_path wlink_options (Some device_type) w h))
  = true.
Proof.
  intros Hdt.
  assert (Hemits : emits_only (names_chip "CH32V003")
                     (flash_device firmware_path wlink_options
                        (Some device_type))).
  { unfold flash_device, flash_device_body.
    apply emits_try; [| intros e; apply emits_on_error].
    apply emits_bind; [emits | intros fp0].
    apply emits_bind; [emits | intros fp].
    apply emits_bind; [emits | intros _].
    apply (emits_after_detection (names_chip "CH32V003") fp wlink_options
             device_type true Hdt eq_refl).
    emits. }
  exact (Hemits w h).
Qed.

Lemma vsd_branch_names_ch32v003_witness :
  forallb (names_chip "CH32V003")
    (snd (flash_device (Some "fw.bin") None
            (Some "VSD Squadran Mini (CH32V30X)") sees_30x []))
  = true.
Proof.
  apply (vsd_branch_names_ch32v003 (Some "fw.bin") None
           "VSD Squadran Mini (CH32V30X)" sees_30x []).
  reflexivity.
Defined.

(** That session erases and flashes a chip it calls CH32V003, while the
    programmer reports a CH32V30X. *)
Example a_30x_board_is_flashed_as_003 :
  map argv_of
    (filter (fun e => is_erase e || is_flash e)
       (snd (flash_device (Some "fw.bin") None
               (Some "VSD Squadran Mini (CH32V30X)") sees_30x [])))
  = [["wlink"; "erase"; "--method"; "power-off"; "--chip"; "CH32V003"; "-v"];
     ["wlink"; "flash"; "--chip"; "CH32V003"; "--speed"; "low"; "--verify";
      "/work/fw.bin"]].
Proof. vm_compute. reflexivity. Qed.

(** ** Chip detection *)

Lemma first_chip_is_known output chip :
  first_chip_in output = Some chip ->
  In chip known_chips /\ PyStr.contains chip output = true.
Proof.
  unfold first_chip_in. intros H. apply find_some in H. exact H.
Qed.

Lemma known_chip_has_config chip :
  In chip known_chips -> dict_get chip chip_configs = Some (chip_config chip).
Proof.
  unfold known_chips. intros H.
  repeat (destruct H as [H | H]; [subst chip; reflexivity |]).
  contradiction.
Qed.

(** X3. [detect_chip_type] makes one status query, through a shell, and
    then either returns the configuration of a chip of its table, in which
    the chip to erase and the chip to flash are that same chip, or raises a
    [FirmwareUpdateError] whose message starts with
    [Error detecting chip type: ]: nothing else gets out, the error it
    raises itself for an unknown chip is wrapped like the others. *)
Theorem detect_chip_type_outcome w h :
  snd (detect_chip_type w h) = [Shell status_command] /\
  match fst (detect_chip_type w h) with
  | Return chip_info =>
      exists chip,
        In chip known_chips /\
        dict_get "erase_chip" chip_info = Some chip /\
        dict_get "flash_chip" chip_info = Some chip
  | Raise e =>
      exists text,
        e = FirmwareUpdateError ("Error detecting chip type: " +++ text)
  end.
Proof.
  unfold detect_chip_type, try_except. rewrite bind_ask.
  change (dict_keys chip_configs) with known_chips.
  destruct (respond w h (Shell status_command)) as [p | text].
  - fold (first_chip_in (stdout p)).
    destruct (first_chip_in (stdout p)) as [chip |] eqn:Hfirst.
    + destruct (first_chip_is_known _ _ Hfirst) as [Hin _].
      unfold subscript. rewrite (known_chip_has_config chip Hin).
      split; [reflexivity |]. exists chip. auto.
    + destruct (PyStr.contains "WCH-LinkE-CH32V305" (stdout p)).
      * split; [reflexivity |]. exists "CH32V30X".
        split; [simpl; auto | split; reflexivity].
      * unfold bind, console_print, raise.
        destruct (print_error w _ (stdout p) _);
          (split; [reflexivity |]); eexists; reflexivity.
  - split; [reflexivity |]. eexists. reflexivity.
Qed.

(** X4. Once the status query comes back, its exit status plays no part:
    where the output names a chip of the table, the detection succeeds with
    the first such chip in the order of the table. *)
Theorem detection_takes_first_named_chip w h p chip :
  respond w h (Shell status_command) = Done p ->
  In chip known_chips ->
  PyStr.contains chip (stdout p) = true ->
  exists first,
    first_chip_in (stdout p) = Some first /\
    detect_chip_type w h = (Return (chip_config first), [Shell status_command]).
Proof.
  intros Hreply Hin Hcontains.
  destruct (first_chip_in (stdout p)) as [first |] eqn:Hfirst.
  - exists first. split; [reflexivity |].
    destruct (first_chip_is_known _ _ Hfirst) as [Hknown _].
    unfold detect_chip_type, try_except. rewrite bind_ask, Hreply.
    change (dict_keys chip_configs) with known_chips.
    fold (first_chip_in (stdout p)). rewrite Hfirst.
    unfold subscript. rewrite (known_chip_has_config first Hknown).
    reflexivity.
  - unfold first_chip_in in Hfirst.
    pose proof (find_none _ _ Hfirst chip Hin) as Hnone.
    simpl in Hnone. rewrite Hcontains in Hnone. discriminate Hnone.
Qed.

Lemma detection_takes_first_named_chip_witness :
  exists first,
    first_chip_in "CH32V003 CH32V30X" = Some first /\
    detect_chip_type two_chips_failing []
    = (Return (chip_config first), [Shell status_command]).
Proof.
  apply (detection_takes_first_named_chip two_chips_failing []
           {| returncode := 1; stdout := "CH32V003 CH32V30X"; stderr := "" |}
           "CH32V003").
  - reflexivity.
  - simpl. auto 10.
  - reflexivity.
Defined.

(** ** Reset and erase, taken alone *)

(** X5. [reset_device] raises nothing.  It answers [True] exactly when the
    reset command exits with status 0, and then it has blocked for fifty
    tenths of a second; after a failed reset it returns at once. *)
Theorem reset_device_outcome w h :
  reset_device w h
  = if exit_ok (respond w h (Exec reset_command))
    then (Return true, reset_done_events)
    else (Return false, [Exec reset_command]).
Proof. exact (reset_device_run w h). Qed.

(** X6. The erase loop stops at the first attempt that succeeds, sleeps two
    seconds between two attempts and never after the last one, and raises
    the erase error exactly when three attempts in a row failed.  Where
    [run_command] raises, for the report of a failure that the console
    does not print, the loop ends at once on that exception. *)
Theorem erase_attempts_outcome erase_cmd w h :
  let erase := Exec (PyStr.split erase_cmd) in
  let run h' := run_result w (respond w h' erase) in
  erase_attempts erase_cmd w h
  = match run h with
    | Return true => (Return (Some tt), [erase])
    | Raise e => (Raise e, [erase])
    | Return false =>
        match run (h ++ [erase; Sleep 2000]) with
        | Return true => (Return (Some tt), [erase; Sleep 2000; erase])
        | Raise e => (Raise e, [erase; Sleep 2000; erase])
        | Return false =>
            match run (h ++ [erase; Sleep 2000; erase; Sleep 2000]) with
            | Return true =>
                (Return (Some tt),
                 [erase; Sleep 2000; erase; Sleep 2000; erase])
            | Raise e =>
                (Raise e, [erase; Sleep 2000; erase; Sleep 2000; erase])
            | Return false =>
                (Raise erase_failed,
                 failed_erase_events (PyStr.split erase_cmd))
            end
        end
    end.
Proof.
  cbv zeta. unfold erase_attempts.
  change (seq 0 max_retries) with [0; 1; 2]. cbn [for_each].
  set (erase := Exec (PyStr.split erase_cmd)).
  exec. rewrite bind_run_command. fold erase.
  destruct (run_result w (respond w h erase)) as [[|] | e];
    [exec; reflexivity | | reflexivity].
  cbn [max_retries Nat.ltb Nat.leb Nat.sub]. exec.
  rewrite bind_run_command. fold erase.
  repeat (rewrite <- app_assoc; cbn [app]).
  destruct (run_result w (respond w (h ++ [erase; Sleep 2000]) erase))
    as [[|] | e]; [exec; reflexivity | | reflexivity].
  cbn [max_retries Nat.ltb Nat.leb Nat.sub]. exec.
  rewrite bind_run_command. fold erase.
  repeat (rewrite <- app_assoc; cbn [app]).
  destruct (run_result w
              (respond w (h ++ [erase; Sleep 2000; erase; Sleep 2000]) erase))
    as [[|] | e]; exec; reflexivity.
Qed.

(** ** Bounds on a session *)

Lemma filter_isnt (P : Event -> bool) evs :
  forallb (isnt P) evs = true -> filter P evs = [].
Proof.
  induction evs as [| e evs IH]; simpl; [reflexivity |].
  unfold isnt at 1. intros H.
  apply andb_true_iff in H. destruct H as [He Hrest].
  apply negb_true_iff in He. rewrite He. exact (IH Hrest).
Qed.

Lemma at_most_quiet {A : Type} (P : Event -> bool) (m : M A) :
  emits_only (isnt P) m -> emits_at_most P 0 m.
Proof.
  intros Hm w h. rewrite (filter_isnt P _ (Hm w h)). reflexivity.
Qed.

Lemma at_most_silent {A : Type} (P : Event -> bool) (n : nat) (m : M A) :
  emits_only (isnt P) m -> emits_at_most P n m.
Proof.
  intros Hm w h. rewrite (filter_isnt P _ (Hm w h)). simpl. lia.
Qed.

Lemma at_most_weaken {A : Type} (P : Event -> bool) (n n' : nat)
    (m : M A) :
  n <= n' -> emits_at_most P n m -> emits_at_most P n' m.
Proof. intros Hn Hm w h. specialize (Hm w h). lia. Qed.

Lemma at_most_bind {A B : Type} (P : Event -> bool) (n1 n2 : nat) (m : M A)
    (f : A -> M B) :
  emits_at_most P n1 m ->
  (forall a, emits_at_most P n2 (f a)) ->
  emits_at_most P (n1 + n2) (bind m f).
Proof.
  intros Hm Hf w h. specialize (Hm w h). unfold bind.
  destruct (m w h) as [[a | e] ev1]; cbn [snd] in *.
  - specialize (Hf a w (h ++ ev1)).
    destruct (f a w (h ++ ev1)) as [r ev2]. cbn [snd] in *.
    rewrite filter_app, length_app. lia.
  - lia.
Qed.

Lemma at_most_after {A B : Type} (P : Event -> bool) (n : nat) (m : M A)
    (f : A -> M B) :
  emits_only (isnt P) m ->
  (forall a, emits_at_most P n (f a)) ->
  emits_at_most P n (bind m f).
Proof.
  intros Hm Hf.
  apply (at_most_bind P 0 n); [apply at_most_quiet, Hm | exact Hf].
Qed.

Lemma at_most_before {A B : Type} (P : Event -> bool) (n : nat) (m : M A)
    (f : A -> M B) :
  emits_at_most P n m ->
  (forall a, emits_only (isnt P) (f a)) ->
  emits_at_most P n (bind m f).
Proof.
  intros Hm Hf. apply at_most_weaken with (n := n + 0); [lia |].
  apply at_most_bind; [exact Hm | intros a; apply at_most_quiet, Hf].
Qed.

Lemma at_most_try {A : Type} (P : Event -> bool) (n : nat) (m : M A)
    (handler : exn -> M A) :
  emits_at_most P n m ->
  (forall e, emits_only (isnt P) (handler e)) ->
  emits_at_most P n (try_except m handler).
Proof.
  intros Hm Hh w h. specialize (Hm w h). unfold try_except.
  destruct (m w h) as [[a | e] ev1]; cbn [snd] in *; [exact Hm |].
  specialize (Hh e w (h ++ ev1)).
  destruct (handler e w (h ++ ev1)) as [r ev2]. cbn [snd] in *.
  rewrite filter_app, length_app, (filter_isnt P _ Hh). simpl. lia.
Qed.

Lemma at_most_for_each {A R : Type} (P : Event -> bool) (k : nat)
    (xs : list A) (body : A -> M (option R)) :
  (forall x, emits_at_most P k (body x)) ->
  emits_at_most P (List.length xs * k) (for_each xs body).
Proof.
  intros Hbody. induction xs as [| x rest IH]; cbn [for_each List.length].
  - intros w h. simpl. lia.
  - apply at_most_weaken with (n := k + List.length rest * k); [lia |].
    apply at_most_bind; [apply Hbody |].
    intros [v |]; [| exact IH].
    apply at_most_weaken with (n := 0); [lia |].
    apply at_most_quiet, emits_ret.
Qed.

Lemma at_most_run_command (P : Event -> bool) command :
  emits_at_most P 1 (run_command command).
Proof.
  intros w h. rewrite run_command_run. cbn [snd filter].
  destruct (P _); simpl; lia.
Qed.

Ltac quiet := first [apply at_most_after; [emits | intros ?]].

Lemma at_most_erase_attempts erase_cmd :
  emits_at_most is_erase max_retries (erase_attempts erase_cmd).
Proof.
  unfold erase_attempts.
  apply at_most_weaken with (n := List.length (seq 0 max_retries) * 1);
    [reflexivity |].
  apply at_most_for_each. intros attempt.
  apply at_most_before; [apply at_most_run_command | intros ok; emits].
Qed.

Lemma at_most_three_erases firmware_path wlink_options device_type :
  emits_at_most is_erase max_retries
    (flash_device firmware_path wlink_options device_type).
Proof.
  unfold flash_device, flash_device_body.
  apply at_most_try; [| intros e; apply emits_on_error].
  do 6 quiet.
  destruct (PyStr.contains _ _).
  - unfold vsd_session, vsd_flash_attempt, vsd_flash_cmd. cbv zeta.
    apply at_most_before; [apply at_most_erase_attempts | intros _].
    destruct (String.eqb _ "CH32V003"); emits.
  - unfold other_session. do 3 quiet.
    apply at_most_before; [apply at_most_erase_attempts | intros _; emits].
Qed.

Lemma at_most_nine_flashes firmware_path wlink_options device_type :
  emits_at_most is_flash (3 * max_retries)
    (flash_device firmware_path wlink_options device_type).
Proof.
  unfold flash_device, flash_device_body.
  apply at_most_try; [| intros e; apply emits_on_error].
  do 6 quiet.
  destruct (PyStr.contains _ _).
  - unfold vsd_session. cbv zeta. do 2 quiet.
    destruct (negb _); [apply at_most_silent; emits |].
    apply at_most_before; [| intros res; emits].
    apply at_most_weaken
      with (n := List.length vsd_speeds
                 * (List.length (seq 0 max_retries) * 1));
      [reflexivity |].
    apply at_most_for_each; intros speed.
    apply at_most_for_each; intros attempt.
    unfold vsd_flash_attempt. do 2 quiet.
    destruct (negb _); [apply at_most_silent; emits |].
    apply at_most_before; [apply at_most_run_command | intros ok; emits].
  - unfold other_session, other_flash_phase. do 5 quiet.
    apply at_most_after; [emits | intros idx].
    apply at_most_before; [| intros res; emits].
    apply at_most_weaken
      with (n := List.length (skipn idx other_speeds)
                 * (List.length (seq 0 max_retries) * 1)).
    { rewrite length_skipn.
      change (List.length other_speeds) with 3.
      change (List.length (seq 0 max_retries) * 1) with 3.
      unfold max_retries. lia. }
    apply at_most_for_each; intros speed. quiet.
    apply at_most_for_each; intros attempt.
    unfold other_flash_attempt.
    apply at_most_before; [apply at_most_run_command | intros ok; emits].
Qed.

Lemma at_most_two_status_queries firmware_path wlink_options device_type :
  emits_at_most is_shell 2
    (flash_device firmware_path wlink_options device_type).
Proof.
  unfold flash_device, flash_device_body.
  apply at_most_try; [| intros e; apply emits_on_error].
  do 3 quiet.
  apply (at_most_bind is_shell 1 1).
  { unfold detect_chip_type. apply at_most_try; [| intros e; emits].
    apply at_most_before; [| intros r; emits].
    intros w h. simpl. lia. }
  intros chip_info. do 2 quiet.
  destruct (PyStr.contains _ _).
  - apply at_most_silent. emits.
  - unfold other_session.
    apply at_most_before; [| intros chip_types; emits].
    unfold detect_chip_type. apply at_most_try; [| intros e; emits].
    apply at_most_before; [| intros r; emits].
    intros w h. simpl. lia.
Qed.

(** X7. Whatever the input and the world, a call of [flash_device] issues
    at most [max_retries] = 3 erase invocations, at most three times as many
    flash invocations, and at most two status queries. *)
Theorem session_is_bounded firmware_path wlink_options device_type w h :
  List.length
    (filter is_erase
       (snd (flash_device firmware_path wlink_options device_type w h)))
  <= max_retries /\
  List.length
    (filter is_flash
       (snd (flash_device firmware_path wlink_options device_type w h)))
  <= 3 * max_retries /\
  List.length
    (filter is_shell
       (snd (flash_device firmware_path wlink_options device_type w h)))
  <= 2.
Proof.
  split; [| split].
  - apply at_most_three_erases.
  - apply at_most_nine_flashes.
  - apply at_most_two_status_queries.
Qed.

(** ** Success is a flash invocation that succeeded, and the last event *)

Lemma no_flash_succeeded_app w evs1 :
  forall h evs2,
    no_flash_succeeded w h (evs1 ++ evs2)
    = no_flash_succeeded w h evs1 && no_flash_succeeded w (h ++ evs1) evs2.
Proof.
  induction evs1 as [| e evs1 IH]; intros h evs2; cbn [app no_flash_succeeded].
  - rewrite app_nil_r. reflexivity.
  - rewrite IH, <- app_assoc, andb_assoc. reflexivity.
Qed.

Lemma no_flash_succeeded_quiet w h evs :
  forallb not_flash evs = true -> no_flash_succeeded w h evs = true.
Proof.
  revert h. induction evs as [| e evs IH]; intros h; simpl; [reflexivity |].
  unfold not_flash at 1. intros H.
  apply andb_true_iff in H. destruct H as [He Hrest].
  apply negb_true_iff in He. rewrite (IH _ Hrest), andb_true_r.
  destruct e; try reflexivity. unfold flash_succeeded. rewrite He.
  reflexivity.
Qed.

Lemma ends_on_success_after w h evs1 evs2 :
  no_flash_succeeded w h evs1 = true ->
  ends_on_success w (h ++ evs1) evs2 ->
  ends_on_success w h (evs1 ++ evs2).
Proof.
  intros Hquiet (pre & argv & Heq & Hok & Hpre). subst evs2.
  exists (evs1 ++ pre), argv. rewrite <- app_assoc in Hok.
  rewrite no_flash_succeeded_app, Hquiet, Hpre, <- app_assoc. auto.
Qed.

Lemma decides_raise {A : Type} (won : A -> bool) (e : exn) :
  flash_decides won (raise e).
Proof. intros w h. reflexivity. Qed.

Lemma decides_lost {A : Type} (won : A -> bool) (a : A) :
  won a = false -> flash_decides won (ret a).
Proof. intros Ha w h. cbn. rewrite Ha. reflexivity. Qed.

(** What comes after events that are no flash invocation decides. *)
Lemma decides_after {A B : Type} (won : B -> bool) (m : M A) (f : A -> M B) :
  emits_only not_flash m ->
  (forall a, flash_decides won (f a)) ->
  flash_decides won (bind m f).
Proof.
  intros Hm Hf w h. specialize (Hm w h). unfold bind.
  destruct (m w h) as [[a | e] ev1]; cbn [snd] in Hm.
  - specialize (Hf a w (h ++ ev1)).
    pose proof (no_flash_succeeded_quiet w h ev1 Hm) as Hquiet.
    destruct (f a w (h ++ ev1)) as [[b | e] ev2].
    + destruct (won b).
      * apply ends_on_success_after; assumption.
      * rewrite no_flash_succeeded_app, Hquiet, Hf. reflexivity.
    + rewrite no_flash_succeeded_app, Hquiet, Hf. reflexivity.
  - apply no_flash_succeeded_quiet. exact Hm.
Qed.

Lemma decides_for_each {A R : Type} (xs : list A)
    (body : A -> M (option R)) :
  (forall x, flash_decides is_some (body x)) ->
  flash_decides is_some (for_each xs body).
Proof.
  intros Hbody. induction xs as [| x rest IH]; cbn [for_each].
  - apply decides_lost. reflexivity.
  - intros w h. specialize (Hbody x w h). unfold bind.
    destruct (body x w h) as [[[v |] | e] ev1]; cbn [is_some] in Hbody.
    + cbn. rewrite app_nil_r. exact Hbody.
    + specialize (IH w (h ++ ev1)).
      destruct (for_each rest body w (h ++ ev1)) as [[r | e] ev2].
      * destruct (is_some r).
        -- apply ends_on_success_after; assumption.
        -- rewrite no_flash_succeeded_app, Hbody, IH. reflexivity.
      * rewrite no_flash_succeeded_app, Hbody, IH. reflexivity.
    + exact Hbody.
Qed.

(** Leaving the loops: the function returns what won, or raises. *)
Lemma decides_finish {R : Type} (m : M (option R)) (e : exn) :
  flash_decides is_some m ->
  flash_decides (fun _ => true)
    (bind m (fun res => match res with
                        | Some result => ret result
                        | None => raise e
                        end)).
Proof.
  intros Hm w h. specialize (Hm w h). unfold bind.
  destruct (m w h) as [[[v |] | e'] ev1]; cbn [is_some] in Hm; cbn.
  - rewrite app_nil_r. exact Hm.
  - rewrite app_nil_r. exact Hm.
  - exact Hm.
Qed.

(** One flash attempt: the command, then success, or a tail that makes no
    flash invocation and lets the loop go on. *)
Lemma decides_attempt {R : Type} (command : string) (v : R)
    (tail : M (option R)) :
  is_flash (Exec (PyStr.split command)) = true ->
  emits_only not_flash tail ->
  returns_only (fun r => r = None) tail ->
  flash_decides is_some
    (ok <- run_command command ;; if ok then ret (Some v) else tail).
Proof.
  intros Hflash Hquiet Hnone w h.
  rewrite bind_run_command. unfold run_result.
  destruct (exit_ok (respond w h (Exec (PyStr.split command)))) eqn:Hok;
    [| destruct (report_error w _) as [e |]].
  - cbn. exists [], (PyStr.split command). rewrite app_nil_r.
    unfold flash_succeeded. rewrite Hflash, Hok. auto.
  - cbn [no_flash_succeeded]. unfold flash_succeeded.
    rewrite Hflash, Hok. reflexivity.
  - specialize (Hquiet w (h ++ [Exec (PyStr.split command)])).
    specialize (Hnone w (h ++ [Exec (PyStr.split command)])).
    destruct (tail w (h ++ [Exec (PyStr.split command)])) as [[r | e] evs].
    + rewrite (Hnone r evs eq_refl). cbn [is_some no_flash_succeeded].
      unfold flash_succeeded. rewrite Hflash, Hok. cbn [andb negb].
      apply no_flash_succeeded_quiet. exact Hquiet.
    + cbn [no_flash_succeeded].
      unfold flash_succeeded. rewrite Hflash, Hok. cbn [andb negb].
      apply no_flash_succeeded_quiet. exact Hquiet.
Qed.

Lemma decides_vsd_session firmware_path wlink_options actual_chip :
  flash_decides (fun _ => true)
    (vsd_session firmware_path wlink_options actual_chip).
Proof.
  unfold vsd_session. cbv zeta.
  apply decides_after; [emits | intros _].
  apply decides_after; [emits | intros r].
  destruct (negb r); [apply decides_raise |].
  apply decides_finish.
  apply decides_for_each; intros speed.
  apply decides_for_each; intros attempt.
  unfold vsd_flash_attempt.
  apply decides_after; [emits | intros abs].
  apply decides_after; [emits | intros e].
  destruct (negb e); [apply decides_raise |].
  apply decides_attempt.
  - unfold vsd_flash_cmd. destruct (String.eqb _ _); reflexivity.
  - emits.
  - repeat returns_step.
Qed.

Lemma decides_other_session firmware_path wlink_options :
  flash_decides (fun _ => true) (other_session firmware_path wlink_options).
Proof.
  unfold other_session, other_flash_phase.
  do 6 (apply decides_after; [emits | intros ?]).
  apply decides_finish.
  apply decides_for_each; intros speed.
  apply decides_after; [emits | intros _].
  apply decides_for_each; intros attempt.
  unfold other_flash_attempt.
  apply decides_attempt; [reflexivity | emits | repeat returns_step].
Qed.

Lemma decides_body firmware_path wlink_options device_type :
  flash_decides (fun _ => true)
    (flash_device_body firmware_path wlink_options device_type).
Proof.
  unfold flash_device_body.
  do 6 (apply decides_after; [emits | intros ?]).
  destruct (PyStr.contains _ _).
  - apply decides_vsd_session.
  - apply decides_other_session.
Qed.

(** X8. A call of [flash_device] answers [True] exactly when a flash
    invocation succeeded, and then that invocation is the last event of the
    session: nothing is retried, reset or waited for after it.  In every
    other case, where it answers [False] and where an exception leaves its
    handler, no flash invocation succeeded. *)
Theorem success_is_the_last_event firmware_path wlink_options device_type
    w h :
  (fst (flash_device firmware_path wlink_options device_type w h)
   = Return (true, wlink_options) /\
   ends_on_success w h
     (snd (flash_device firmware_path wlink_options device_type w h))) \/
  ((fst (flash_device firmware_path wlink_options device_type w h)
    = Return (false, wlink_options) \/
    exists msg,
      fst (flash_device firmware_path wlink_options device_type w h)
      = Raise (MarkupError msg)) /\
   no_flash_succeeded w h
     (snd (flash_device firmware_path wlink_options device_type w h))
   = true).
Proof.
  pose proof (decides_body firmware_path wlink_options device_type w h)
    as Hbody.
  rewrite flash_device_unfold.
  destruct (flash_device_body _ _ _ w h) as [[v | e] evs] eqn:Hrun;
    cbn [fst snd].
  - apply flash_device_body_returns in Hrun. subst v. left. auto.
  - right. split; [apply on_error_outcome | exact Hbody].
Qed.

(** ** What the handlers hold back *)



(** ** Speed escalation, in any world *)

Lemma filter_flash_sleep ms evs :
  filter is_flash (Sleep ms :: evs) = filter is_flash evs.
Proof. reflexivity. Qed.

Lemma filter_flash_hit argv evs :
  is_flash (Exec argv) = true ->
  filter is_flash (Exec argv :: evs) = Exec argv :: filter is_flash evs.
Proof. intros H. cbn [filter]. rewrite H. reflexivity. Qed.

Lemma other_flash_is_flash chip speed firmware_path :
  is_flash (Exec (flash_argv chip speed firmware_path)) = true.
Proof. reflexivity. Qed.

(** The attempts at one speed, whatever the tool does: one to three flash
    invocations, and three of them where the loop goes on. *)
Lemma other_attempts_any w h chip firmware_path wlink_options speed :
  exists k,
    filter is_flash
      (snd (for_each (seq 0 max_retries)
              (other_flash_attempt chip firmware_path wlink_options speed)
              w h))
    = repeat (Exec (flash_argv chip speed firmware_path)) k /\
    1 <= k <= max_retries /\
    (fst (for_each (seq 0 max_retries)
            (other_flash_attempt chip firmware_path wlink_options speed) w h)
     = Return None -> k = max_retries).
Proof.
  pose proof (other_flash_is_flash chip speed firmware_path) as HF.
  unfold other_flash_attempt.
  change (seq 0 max_retries) with [0; 1; 2]. cbn [for_each].
  set (F := flash_argv chip speed firmware_path) in *.
  assert (Hcmd : PyStr.split (other_flash_cmd chip speed firmware_path) = F)
    by reflexivity.
  clearbody F. exec. rewrite bind_run_command, !Hcmd.
  destruct (run_result w (respond w h (Exec F))) as [[|] | e].
  { exec. exists 1. unfold ret; cbn [fst snd].
    rewrite (filter_flash_hit _ _ HF). unfold max_retries.
    repeat split; try reflexivity; try lia; try discriminate. }
  2: { exists 1. cbn [fst snd]. rewrite (filter_flash_hit _ _ HF).
       unfold max_retries.
       repeat split; try reflexivity; try lia; try discriminate. }
  cbn [max_retries Nat.ltb Nat.leb Nat.sub]. exec.
  rewrite bind_run_command, !Hcmd.
  match goal with
  | |- context [run_result w (respond w ?h' (Exec F))] =>
      destruct (run_result w (respond w h' (Exec F))) as [[|] | e]
  end.
  { exec. exists 2. unfold ret; cbn [fst snd].
    rewrite (filter_flash_hit _ _ HF), filter_flash_sleep,
      (filter_flash_hit _ _ HF). unfold max_retries.
    repeat split; try reflexivity; try lia; try discriminate. }
  2: { exists 2. cbn [fst snd].
       rewrite (filter_flash_hit _ _ HF), filter_flash_sleep,
         (filter_flash_hit _ _ HF). unfold max_retries.
       repeat split; try reflexivity; try lia; try discriminate. }
  cbn [max_retries Nat.ltb Nat.leb Nat.sub]. exec.
  rewrite bind_run_command, !Hcmd.
  match goal with
  | |- context [run_result w (respond w ?h' (Exec F))] =>
      destruct (run_result w (respond w h' (Exec F))) as [[|] | e]
  end.
  { exec. exists 3. unfold ret; cbn [fst snd].
    rewrite (filter_flash_hit _ _ HF), filter_flash_sleep,
      (filter_flash_hit _ _ HF), filter_flash_sleep,
      (filter_flash_hit _ _ HF). unfold max_retries.
    repeat split; try reflexivity; try lia; try discriminate. }
  2: { exists 3. cbn [fst snd].
       rewrite (filter_flash_hit _ _ HF), filter_flash_sleep,
         (filter_flash_hit _ _ HF), filter_flash_sleep,
         (filter_flash_hit _ _ HF). unfold max_retries.
       repeat split; try reflexivity; try lia; try discriminate. }
  cbn [max_retries Nat.ltb Nat.leb Nat.sub].
  destruct (negb (String.eqb speed (last other_speeds ""))); exec;
    exists 3; unfold ret; cbn [fst snd];
    rewrite (filter_flash_hit _ _ HF), filter_flash_sleep,
      (filter_flash_hit _ _ HF), filter_flash_sleep,
      (filter_flash_hit _ _ HF); unfold max_retries;
    repeat split; try reflexivity; lia.
Qed.

Lemma bind_congr {A B : Type} (Q : A -> Prop) (m : M A) (f g : A -> M B)
    w h :
  returns_only Q m ->
  (forall a h', Q a -> f a w h' = g a w h') ->
  bind m f w h = bind m g w h.
Proof.
  intros HQ Hfg. unfold bind.
  destruct (m w h) as [[a | e] ev1] eqn:Hrun; [| reflexivity].
  rewrite (Hfg a (h ++ ev1) (HQ w h a ev1 Hrun)). reflexivity.
Qed.

(** With a device type given, [flash_device] is the check of the path, the
    chip detection, and the branch the device type names: the detected chip
    plays no part in the choice. *)
Lemma body_by_branch firmware_path wlink_options device_type w h :
  flash_device_body firmware_path wlink_options (Some device_type) w h
  = bind (checked_path firmware_path (Some device_type))
      (fun fp =>
         detect_chip_type ;;;
         if PyStr.contains "VSD Squadran Mini" device_type
         then vsd_session fp wlink_options None
         else other_session fp wlink_options) w h.
Proof.
  unfold flash_device_body, checked_path.
  rewrite !bind_bind.
  apply bind_congr with (Q := fun _ => True); [apply returns_any |].
  intros fp0 h0 _. rewrite !bind_bind.
  apply bind_congr with (Q := fun _ => True); [apply returns_any |].
  intros fp h1 _. rewrite !bind_bind.
  apply bind_congr with (Q := fun _ => True); [apply returns_any |].
  intros [] h2 _. rewrite bind_ret.
  apply bind_congr with (Q := is_chip_config);
    [apply detect_chip_type_returns |].
  intros chip_info h3 Hinfo.
  rewrite (find_actual_chip_none _ Hinfo), bind_ret,
    resolve_mismatch_none, bind_ret.
  reflexivity.
Qed.

Lemma other_speed_loop_escalates chip firmware_path wlink_options w :
  forall speeds h,
    escalates chip firmware_path speeds
      (filter is_flash
         (snd (other_speed_loop chip firmware_path wlink_options speeds
                 w h))).
Proof.
  unfold other_speed_loop.
  induction speeds as [| speed rest IH]; intros h; cbn [for_each].
  - apply esc_none.
  - rewrite bind_bind.
    rewrite (bind_known _ _ _ _ _ _ (power_cycle_wait_run w h)).
    destruct (other_attempts_any w (h ++ power_cycle_events) chip
                firmware_path wlink_options speed)
      as (k & Hfilter & Hk & Hnone).
    unfold bind at 1.
    destruct (for_each (seq 0 max_retries)
                (other_flash_attempt chip firmware_path wlink_options speed)
                w (h ++ power_cycle_events)) as [[[v |] | e] ev1];
      cbn [fst snd] in Hfilter, Hnone.
    + unfold ret. cbn [snd].
      rewrite !filter_app, power_cycle_no_flash, Hfilter. cbn [app filter].
      rewrite app_nil_r. apply esc_stop. exact Hk.
    + specialize (IH ((h ++ power_cycle_events) ++ ev1)).
      destruct (for_each rest _ w ((h ++ power_cycle_events) ++ ev1))
        as [r2 ev2].
      cbn [snd] in *.
      rewrite !filter_app, power_cycle_no_flash, Hfilter.
      rewrite (Hnone eq_refl). cbn [app]. apply esc_next. exact IH.
    + cbn [snd].
      rewrite !filter_app, power_cycle_no_flash, Hfilter. cbn [app].
      apply esc_stop. exact Hk.
Qed.

Lemma other_flash_phase_by_start chip firmware_path wlink_options w h :
  match start_of wlink_options with
  | Some idx =>
      other_flash_phase chip firmware_path wlink_options w h
      = bind (other_speed_loop chip firmware_path wlink_options
                (skipn idx other_speeds))
          (fun res => match res with
                      | Some result => ret result
                      | None => raise flash_exhausted
                      end) w h
  | None =>
      exists text,
        other_flash_phase chip firmware_path wlink_options w h
        = (Raise (OtherException text), [])
  end.
Proof.
  unfold start_of, other_flash_phase, starting_speed_index, subscript.
  destruct wlink_options as [d |]; [| eexists; reflexivity].
  destruct (dict_get "speed" d) as [speed |]; [| eexists; reflexivity].
  rewrite bind_bind, bind_ret.
  destruct (list_index speed other_speeds) as [idx |];
    [| eexists; reflexivity].
  rewrite bind_ret. reflexivity.
Qed.

Lemma other_flash_phase_escalates_any chip firmware_path wlink_options w h :
  escalates chip firmware_path (speeds_from wlink_options)
    (filter is_flash
       (snd (other_flash_phase chip firmware_path wlink_options w h))).
Proof.
  pose proof (other_flash_phase_by_start chip firmware_path wlink_options w h)
    as Hphase.
  unfold speeds_from. destruct (start_of wlink_options) as [idx |].
  - rewrite Hphase. unfold bind.
    pose proof (other_speed_loop_escalates chip firmware_path wlink_options w
                  (skipn idx other_speeds) h) as Hesc.
    destruct (other_speed_loop chip firmware_path wlink_options
                (skipn idx other_speeds) w h) as [[[v |] | e] evs];
      unfold ret, raise; cbn [snd] in *;
      rewrite ?app_nil_r; exact Hesc.
  - destruct Hphase as (text & Hphase). rewrite Hphase. apply esc_none.
Qed.

Lemma escalates_after {A B : Type} wlink_options (m : M A) (f : A -> M B) :
  emits_only not_flash m ->
  (forall a, escalates_or_silent wlink_options (f a)) ->
  escalates_or_silent wlink_options (bind m f).
Proof.
  intros Hm Hf w h. specialize (Hm w h). unfold bind.
  destruct (m w h) as [[a | e] ev1]; cbn [snd] in Hm.
  - specialize (Hf a w (h ++ ev1)).
    destruct (f a w (h ++ ev1)) as [r ev2]. cbn [snd] in *.
    rewrite filter_app, (not_flash_filter _ Hm). exact Hf.
  - left. exact (not_flash_filter _ Hm).
Qed.

Lemma escalates_other_session firmware_path wlink_options :
  escalates_or_silent wlink_options
    (other_session firmware_path wlink_options).
Proof.
  unfold other_session.
  do 5 (apply escalates_after; [emits | intros ?]).
  intros w h. right. eexists _, _.
  apply other_flash_phase_escalates_any.
Qed.

Lemma escalates_other_branch firmware_path wlink_options device_type :
  escalates_or_silent wlink_options
    (fp <- checked_path firmware_path (Some device_type) ;;
     detect_chip_type ;;; other_session fp wlink_options).
Proof.
  apply escalates_after; [unfold checked_path; emits | intros fp].
  apply escalates_after; [emits | intros _].
  apply escalates_other_session.
Qed.

(** X9. On the branch for the other devices the flash invocations of a
    session follow the speed list from the speed the options start at:
    one to three invocations at a speed, the next speed only after three
    at the one before, never a speed that comes earlier in the list, and
    none at all where the options hold no speed of the list. *)
Theorem flash_speeds_follow_the_list firmware_path wlink_options device_type
    w h :
  PyStr.contains "VSD Squadran Mini" device_type = false ->
  filter is_flash
    (snd (flash_device firmware_path wlink_options (Some device_type) w h))
  = [] \/
  exists chip fp,
    escalates chip fp (speeds_from wlink_options)
      (filter is_flash
         (snd (flash_device firmware_path wlink_options (Some device_type)
                 w h))).
Proof.
  intros Hdt. rewrite snd_flash_device, body_by_branch, Hdt.
  apply escalates_other_branch.
Qed.

Lemma flash_speeds_follow_the_list_witness :
  filter is_flash
    (snd (flash_device (Some "fw.bin") (Some high_speed)
            (Some "Other WCH-Link devices") slow_link []))
  = [] \/
  exists chip fp,
    escalates chip fp (speeds_from (Some high_speed))
      (filter is_flash
         (snd (flash_device (Some "fw.bin") (Some high_speed)
                 (Some "Other WCH-Link devices") slow_link []))).
Proof.
  apply (flash_speeds_follow_the_list (Some "fw.bin") (Some high_speed)
           "Other WCH-Link devices" slow_link []).
  reflexivity.
Defined.

(** What [escalates] allows: flash invocations at the listed speeds only,
    and no more than three for each. *)
Lemma escalates_listed_speeds chip firmware_path speeds evs :
  escalates chip firmware_path speeds evs ->
  Forall (fun e => exists speed,
              In speed speeds /\
              e = Exec (flash_argv chip speed firmware_path)) evs /\
  List.length evs <= List.length speeds * max_retries.
Proof.
  induction 1 as [| speed rest k Hk | speed rest evs Hesc [IHall IHlen]].
  - split; [constructor | cbn [List.length]; lia].
  - split.
    + apply Forall_forall. intros e He. apply repeat_spec in He.
      exists speed. simpl. auto.
    + rewrite repeat_length. unfold max_retries in *.
      cbn [List.length]. lia.
  - split.
    + apply Forall_app. split.
      * apply Forall_forall. intros e He. apply repeat_spec in He.
        exists speed. simpl. auto.
      * apply Forall_forall. intros e He.
        rewrite Forall_forall in IHall.
        destruct (IHall e He) as (s & Hs & Heq). exists s. simpl. auto.
    + rewrite length_app, repeat_length. unfold max_retries in *.
      cbn [List.length]. lia.
Qed.

(** ** The speed is looked up after the erase *)








(** That session answers [False]; with a speed that holds a closing tag,
    the lookup error is printed as markup and leaves the handler. *)
Example a_speed_with_a_tag_gets_out :
  fst (flash_device (Some "fw.bin") no_speed
         (Some "Other WCH-Link devices") all_fine [])
  = Return (false, no_speed) /\
  fst (flash_device (Some "fw.bin") (Some [("speed", "[/x]")])
         (Some "Other WCH-Link devices") all_fine [])
  = Raise (MarkupError
             "closing tag '[/x]' at position 30 doesn't match any open tag").
Proof. vm_compute. split; reflexivity. Qed.

(** In that session the chip is erased indeed. *)
Example no_speed_session_erases :
  erase_always_works all_fine /\
  existsb is_erase
    (snd (flash_device (Some "fw.bin") no_speed
            (Some "Other WCH-Link devices") all_fine [])) = true.
Proof. split; [intros h argv _; reflexivity | vm_compute; reflexivity]. Qed.

(** ** Where the firmware path comes from *)

Lemma bind_exists {B : Type} (p : string) (f : bool -> M B) w h :
  bind (ask (PathExists p) : M bool) f w h =
  let (r, evs) := f (respond w h (PathExists p)) w (h ++ [PathExists p]) in
  (r, PathExists p :: evs).
Proof. reflexivity. Qed.

(** X11. For a device that is no VSD board [get_firmware_path] never saves
    the path it returns.  For a VSD board it never returns [None] or an
    empty path: it returns the default firmware, which it has just seen on
    disk, or a path from the prompt, which it saves as its last step, or it
    raises. *)
Theorem firmware_path_is_saved_for_vsd_only device_type w h :
  if PyStr.contains "VSD Squadran Mini" device_type then
    forall r evs,
      get_firmware_path (Some device_type) w h = (Return r, evs) ->
      exists p,
        r = Some p /\ p <> "" /\
        ((p = default_firmware device_type /\
          exists pre,
            evs = pre ++ [PathExists p] /\
            respond w (h ++ pre) (PathExists p) = true /\
            existsb is_save evs = false) \/
         exists pre, evs = pre ++ [SaveFirmwarePath p])
  else
    existsb is_save (snd (get_firmware_path (Some device_type) w h)) = false.
Proof.
  unfold get_firmware_path. fold (default_firmware device_type).
  destruct (PyStr.contains "VSD Squadran Mini" device_type).
  - set (dflt := default_firmware device_type).
    assert (Hdflt : dflt <> "")
      by (unfold dflt, default_firmware;
          destruct (PyStr.contains _ _); discriminate).
    clearbody dflt. intros r evs. rewrite !bind_ask.
    destruct (option_string_eqb _ _); cbv beta iota.
    + rewrite bind_exists.
      destruct (respond w ((h ++ [PathExists dflt]) ++ [Select _ _])
                  (PathExists dflt)) eqn:Hexists.
      * intros H. inversion H; subst. exists dflt.
        split; [reflexivity | split; [exact Hdflt |]]. left.
        split; [reflexivity |].
        exists [PathExists dflt;
                Select "Firmware file options:"
                  ["Use default path"; "Select new firmware path"]].
        rewrite <- app_assoc in Hexists. auto.
      * rewrite !bind_ask.
        destruct (respond w _ (PathPrompt _ _)) as [[| c p] |];
          cbn [PyStr.truthy]; unfold raise; cbv beta iota;
          try discriminate.
        rewrite bind_ask. unfold ret. cbv beta iota.
        intros H. inversion H; subst.
        exists (String c p). split; [reflexivity | split; [discriminate |]].
        right. eexists [_; _; _; _; _]. reflexivity.
    + rewrite bind_ret, !bind_ask.
      destruct (respond w _ (PathPrompt _ _)) as [[| c p] |];
        cbn [PyStr.truthy]; unfold raise; cbv beta iota;
        try discriminate.
      rewrite bind_ask. unfold ret. cbv beta iota.
        intros H. inversion H; subst.
      exists (String c p). split; [reflexivity | split; [discriminate |]].
      right. eexists [_; _; _; _]. reflexivity.
  - rewrite bind_ask.
    destruct (respond w h LoadSavedPath) as [saved |].
    + destruct (PyStr.truthy (Some saved)).
      * rewrite bind_exists. destruct (respond w _ (PathExists saved));
          reflexivity.
      * rewrite bind_ret. reflexivity.
    + rewrite bind_ret. reflexivity.
Qed.

(** ** Two detections that disagree *)

(** X12. Where the status output names both CH32V003 and CH32V30X and the
    user accepts what is proposed, [get_device_type] settles on the
    CH32V003 board, without showing the menu, and [detect_chip_type]
    returns the configuration of the CH32V30X on the same output: the two
    look for the chips in opposite orders. *)
Theorem detections_disagree w h p :
  respond w h (Shell status_command) = Done p ->
  PyStr.contains "CH32V003" (stdout p) = true ->
  PyStr.contains "CH32V30X" (stdout p) = true ->
  respond w (h ++ [Shell status_command])
    (Confirm "Would you like to use detected chip type (CH32V003)?")
  = Some true ->
  get_device_type w h
  = (Return (Some "VSD Squadran Mini (CH32V003)"),
     [Shell status_command;
      Confirm "Would you like to use detected chip type (CH32V003)?"]) /\
  detect_chip_type w h
  = (Return (chip_config "CH32V30X"), [Shell status_command]).
Proof.
  intros Hreply H003 H30x Hconfirm. split.
  - unfold get_device_type. unfold bind at 1. unfold try_except.
    rewrite bind_ask, Hreply. cbv zeta. rewrite H003.
    change ("Would you like to use detected chip type (" +++ "CH32V003"
              +++ ")?")
      with "Would you like to use detected chip type (CH32V003)?".
    rewrite bind_ask, Hconfirm. reflexivity.
  - unfold detect_chip_type, try_except. rewrite bind_ask, Hreply.
    change (dict_keys chip_configs) with known_chips.
    unfold known_chips. cbn [find]. rewrite H30x. reflexivity.
Qed.

Lemma detections_disagree_witness :
  get_device_type sees_both []
  = (Return (Some "VSD Squadran Mini (CH32V003)"),
     [Shell status_command;
      Confirm "Would you like to use detected chip type (CH32V003)?"]) /\
  detect_chip_type sees_both []
  = (Return (chip_config "CH32V30X"), [Shell status_command]).
Proof.
  apply (detections_disagree sees_both []
           {| returncode := 0; stdout := "CH32V003 CH32V30X"; stderr := "" |});
    reflexivity.
Defined.

(** ** The configuration file *)

Lemma dict_get_set_other {V : Type} (k k' : string) (v : V) (d : dict V) :
  k <> k' -> dict_get k (dict_set k' v d) = dict_get k d.
Proof.
  intros Hk. induction d as [| [k0 v0] rest IH]; simpl.
  - destruct (String.eqb k k') eqn:E; [| reflexivity].
    apply String.eqb_eq in E. contradiction.
  - destruct (String.eqb k' k0) eqn:E1; simpl.
    + apply String.eqb_eq in E1. subst k0.
      destruct (String.eqb k k') eqn:E2; [| reflexivity].
      apply String.eqb_eq in E2. contradiction.
    + destruct (String.eqb k k0); [reflexivity | exact IH].
Qed.

(** X14. [save_default_options] keeps the saved firmware path: as long as
    the dump does not fail half way, [load_saved_path] reads the same before
    and after, whatever the file holds. *)
Theorem saving_options_keeps_the_path o options config_file :
  o <> DumpFailed ->
  load_saved_path (save_default_options o options config_file)
  = load_saved_path config_file.
Proof.
  intros Ho. destruct config_file as [| | v].
  - destruct o; reflexivity.
  - reflexivity.
  - destruct v; try reflexivity.
    destruct o; try reflexivity; [| contradiction].
    cbn [save_default_options write_config load_saved_path].
    rewrite dict_get_set_other by discriminate. reflexivity.
Qed.

Lemma saving_options_keeps_the_path_witness :
  load_saved_path
    (save_default_options Written (JObject [("speed", JString "low")])
       (Stored (JObject [("firmware_path", JString "fw.bin")])))
  = load_saved_path (Stored (JObject [("firmware_path", JString "fw.bin")])).
Proof.
  apply (saving_options_keeps_the_path Written
           (JObject [("speed", JString "low")])
           (Stored (JObject [("firmware_path", JString "fw.bin")]))).
  discriminate.
Defined.

(** ** What [run_command] prints *)

Example wlink_output_is_cleaned :
  cleaned_lines
    ("12:00:01 [INFO] Connected to WCH-Link v2.11" +++ String "010" ""
       +++ "12:00:01 [INFO] ChipID: 0x00300500" +++ String "010" ""
       +++ "   " +++ String "013" (String "010" "")
       +++ "12:00:02 [INFO] Flash done")
  = Some ["► Connected to WCH-Link v2.11"; "► Chip ID: 0x00300500";
          "► Flash completed successfully"].
Proof. vm_compute. reflexivity. Qed.

Lemma split_on_from_nonempty sep :
  forall s skip cur, PyText.split_on_from sep skip cur s <> [].
Proof.
  induction s as [| c rest IH]; intros skip cur; cbn [PyText.split_on_from].
  - discriminate.
  - destruct skip; [| apply IH].
    destruct (String.prefix sep (String c rest)); [discriminate | apply IH].
Qed.

Lemma prefix_of_empty sep : sep <> "" -> String.prefix sep "" = false.
Proof. destruct sep; [congruence | reflexivity]. Qed.

(** Where [sep] occurs in [s], [s.split(sep)] has a second piece. *)
Lemma split_on_has_second sep :
  sep <> "" ->
  forall s cur,
    PyStr.contains sep s = true ->
    exists piece, second (PyText.split_on_from sep 0 cur s) = Some piece.
Proof.
  intros Hsep. induction s as [| c rest IH]; intros cur Hin.
  - cbn [PyStr.contains] in Hin. rewrite (prefix_of_empty sep Hsep) in Hin.
    discriminate Hin.
  - cbn [PyStr.contains] in Hin. cbn [PyText.split_on_from].
    destruct (String.prefix sep (String c rest)).
    + pose proof (split_on_from_nonempty sep rest (String.length sep - 1) "")
        as Hne.
      destruct (PyText.split_on_from sep (String.length sep - 1) "" rest)
        as [| piece pieces]; [contradiction |].
      exists piece. reflexivity.
    + apply IH. exact Hin.
Qed.

Lemma contains_prefix needle hay :
  String.prefix needle hay = true -> PyStr.contains needle hay = true.
Proof.
  intros H. destruct hay; cbn [PyStr.contains]; rewrite H; reflexivity.
Qed.

Lemma contains_later needle c hay :
  PyStr.contains needle hay = true ->
  PyStr.contains needle (String c hay) = true.
Proof.
  intros H. cbn [PyStr.contains].
  destruct (String.prefix needle (String c hay)); [reflexivity | exact H].
Qed.

(** A needle that is in the hay has its tail in the hay too. *)
Lemma contains_tail c needle :
  forall hay,
    PyStr.contains (String c needle) hay = true ->
    PyStr.contains needle hay = true.
Proof.
  induction hay as [| d rest IH]; intros H.
  - cbn in H. discriminate H.
  - cbn [PyStr.contains] in H.
    destruct (String.prefix (String c needle) (String d rest)) eqn:Hp.
    + apply contains_later. apply contains_prefix.
      cbn [String.prefix] in Hp. destruct (ascii_dec c d); [exact Hp |].
      discriminate Hp.
    + apply contains_later. exact (IH H).
Qed.

Lemma protected_is_there s :
  PyStr.contains "Flash protected:" s = true ->
  PyStr.contains "protected:" s = true.
Proof. intros H. do 6 apply contains_tail in H. exact H. Qed.

Lemma read_protected_is_there s :
  PyStr.contains "Read protected:" s = true ->
  PyStr.contains "protected:" s = true.
Proof. intros H. do 5 apply contains_tail in H. exact H. Qed.

Lemma no_close_append a b :
  no_close (a +++ b) = no_close a && no_close b.
Proof.
  induction a as [| c a IH]; simpl; [reflexivity |].
  rewrite IH, andb_assoc. reflexivity.
Qed.

Lemma no_close_lstrip s : no_close s = true -> no_close (PyText.lstrip s) = true.
Proof.
  induction s as [| c rest IH]; [reflexivity |].
  intros H. cbn [PyText.lstrip]. destruct (PyStr.is_space c); [| exact H].
  apply IH. cbn [no_close] in H. apply andb_true_iff in H. apply H.
Qed.

Lemma no_close_rstrip s : no_close s = true -> no_close (PyText.rstrip s) = true.
Proof.
  induction s as [| c rest IH]; [reflexivity |].
  intros H. cbn [no_close] in H. apply andb_true_iff in H.
  destruct H as [Hc Hrest]. specialize (IH Hrest).
  cbn [PyText.rstrip]. destruct (PyText.rstrip rest) as [| d kept].
  - destruct (PyStr.is_space c); [reflexivity |].
    cbn [no_close]. rewrite Hc. reflexivity.
  - cbn [no_close] in *. rewrite Hc. exact IH.
Qed.

Lemma no_close_strip s : no_close s = true -> no_close (PyText.strip s) = true.
Proof. intros H. apply no_close_rstrip, no_close_lstrip, H. Qed.

(** The pieces of a split hold what the string held. *)
Lemma no_close_pieces sep :
  forall s skip cur,
    no_close cur = true -> no_close s = true ->
    Forall (fun piece => no_close piece = true)
      (PyText.split_on_from sep skip cur s).
Proof.
  induction s as [| c rest IH]; intros skip cur Hcur Hs;
    cbn [PyText.split_on_from].
  - constructor; [exact Hcur | constructor].
  - cbn [no_close] in Hs. apply andb_true_iff in Hs.
    destruct Hs as [Hc Hrest].
    destruct skip; [| apply IH; assumption].
    destruct (String.prefix sep (String c rest)).
    + constructor; [exact Hcur | apply IH; [reflexivity | exact Hrest]].
    + apply IH; [| exact Hrest].
      rewrite no_close_append, Hcur. cbn [no_close]. rewrite Hc. reflexivity.
Qed.

(** What follows the last closing bracket holds none. *)
Lemma no_close_after_last :
  forall s cur,
    no_close cur = true ->
    no_close (last (PyText.split_on_from "]" 0 cur s) "") = true.
Proof.
  induction s as [| c rest IH]; intros cur Hcur; cbn [PyText.split_on_from].
  - exact Hcur.
  - cbn [String.prefix]. destruct (ascii_dec "]" c) as [Heq | Hneq].
    + destruct rest; cbn [String.length Nat.sub].
      * reflexivity.
      * pose proof (split_on_from_nonempty "]" (String a rest) 0 "") as Hne.
        specialize (IH "" eq_refl).
        destruct (PyText.split_on_from "]" 0 "" (String a rest));
          [contradiction | exact IH].
    + apply IH. rewrite no_close_append, Hcur. cbn [no_close].
      destruct (Ascii.eqb c "]") eqn:E; [| reflexivity].
      apply Ascii.eqb_eq in E. congruence.
Qed.

Lemma no_close_concat pieces :
  Forall (fun piece => no_close piece = true) pieces ->
  no_close (String.concat "" pieces) = true.
Proof.
  induction 1 as [| piece pieces Hpiece Hrest IH]; [reflexivity |].
  cbn [String.concat]. destruct pieces as [| next more]; [exact Hpiece |].
  rewrite !no_close_append, Hpiece, IH. reflexivity.
Qed.

Lemma no_close_second pieces piece :
  Forall (fun p => no_close p = true) pieces ->
  second pieces = Some piece ->
  no_close piece = true.
Proof.
  intros Hall Hsecond. unfold second in Hsecond.
  apply nth_error_In in Hsecond.
  rewrite Forall_forall in Hall. exact (Hall piece Hsecond).
Qed.

Lemma untagged_no_close line : no_close (untagged line) = true.
Proof.
  unfold untagged, PyText.replace, PyText.split_on.
  apply no_close_concat, no_close_pieces; [reflexivity |].
  apply no_close_strip, no_close_after_last. reflexivity.
Qed.

Lemma prefix_append p :
  forall a b, String.prefix p a = true -> String.prefix p (a +++ b) = true.
Proof.
  induction p as [| x p IH]; intros a b H;
    [destruct a; [destruct b |]; reflexivity |].
  destruct a as [| y a]; [discriminate H |].
  cbn [String.append String.prefix] in *.
  destruct (ascii_dec x y); [apply IH; exact H | discriminate H].
Qed.

Lemma second_piece_ok sep label s :
  sep <> "" ->
  PyStr.contains sep s = true ->
  no_close s = true -> no_close label = true ->
  String.prefix arrow label = true ->
  exists l,
    option_map (String.append label) (second (PyText.split_on sep s))
    = Some l /\
    String.prefix arrow l = true /\ no_close l = true.
Proof.
  intros Hsep Hin Hs Hlabel Harrow. unfold PyText.split_on.
  destruct (split_on_has_second sep Hsep s "" Hin) as (piece & Hpiece).
  rewrite Hpiece. eexists. split; [reflexivity |].
  assert (Hfree : no_close piece = true).
  { apply (no_close_second _ _ (no_close_pieces sep s 0 "" eq_refl Hs) Hpiece). }
  split; [| rewrite no_close_append, Hlabel, Hfree; reflexivity].
  apply prefix_append. exact Harrow.
Qed.

(** The cleaning of a line raises nothing, and what it gives starts with
    the arrow and holds no closing bracket. *)
Lemma clean_ok line :
  exists l,
    clean line = Some l /\ String.prefix arrow l = true /\ no_close l = true.
Proof.
  unfold clean. fold (untagged line).
  pose proof (untagged_no_close line) as Hfree.
  set (s := untagged line) in *. clearbody s. cbv zeta.
  destruct (PyStr.contains "Connected to" s) eqn:H1;
    [apply second_piece_ok; (reflexivity || assumption || discriminate) |].
  destruct (PyText.endswith _ _); [eexists; repeat split; reflexivity |].
  destruct (PyStr.contains "ChipID:" s) eqn:H2;
    [apply second_piece_ok; (reflexivity || assumption || discriminate) |].
  destruct (PyStr.contains "ESIG:" s) eqn:H3;
    [apply second_piece_ok; (reflexivity || assumption || discriminate) |].
  destruct (PyStr.contains "Flash protected:" s) eqn:H4;
    [apply second_piece_ok;
     first [reflexivity | apply protected_is_there; assumption
           | assumption | discriminate] |].
  destruct (PyStr.contains "Read" s && PyStr.contains ".bin" s);
    [eexists; repeat split; reflexivity |].
  destruct (PyStr.contains "Flashing" s);
    [eexists; repeat split; reflexivity |].
  destruct (PyStr.contains "Read protected:" s) eqn:H5;
    [apply second_piece_ok;
     first [reflexivity | apply read_protected_is_there; assumption
           | assumption | discriminate] |].
  destruct (PyStr.contains "Flash done" s);
    [eexists; repeat split; reflexivity |].
  destruct (PyStr.contains "Now reset" s);
    [eexists; repeat split; reflexivity |].
  destruct (String.prefix "► " s) eqn:H6.
  - exists s. auto.
  - eexists. split; [reflexivity |].
    split; [apply prefix_append; reflexivity |].
    rewrite no_close_append, (no_close_strip s Hfree). reflexivity.
Qed.

Lemma clean_each_ok lines :
  exists printed,
    clean_each lines = Some printed /\ Forall printed_line printed.
Proof.
  induction lines as [| line rest (printed & Hrest & Hall)];
    cbn [clean_each].
  - exists []. split; [reflexivity | constructor].
  - destruct (PyStr.truthy (Some (PyText.strip line)));
      [| exists printed; auto].
    destruct (clean_ok line) as (l & Hclean & Harrow & Hfree).
    rewrite Hclean, Hrest.
    destruct (String.eqb (PyText.strip l) "►") eqn:Hbare; cbn [negb].
    + exists printed. auto.
    + exists (l :: printed). split; [reflexivity |].
      constructor; [| exact Hall].
      repeat split; try assumption.
      intros Heq. rewrite Heq in Hbare. discriminate Hbare.
Qed.

(** X15. The cleaning of the output in [run_command] raises nothing: every
    subscript finds its piece.  Every line it prints starts with the arrow,
    is more than the bare arrow, and holds no closing bracket: the tags of
    the tool are gone. *)
Theorem printed_lines_are_clean output :
  exists printed,
    cleaned_lines output = Some printed /\ Forall printed_line printed.
Proof. apply clean_each_ok. Qed.

(** ** The fixed flash command, on a session *)

Lemma vsd_flash_is_low_and_verified_witness :
  emits_only low_and_verified
    (flash_device (Some "fw.bin") (Some high_speed)
       (Some "VSD Squadran Mini (CH32V30X)")).
Proof.
  apply (vsd_flash_is_low_and_verified (Some "fw.bin") (Some high_speed)
           "VSD Squadran Mini (CH32V30X)").
  reflexivity.
Defined.
